(** * FF_Stake: the replace-by-fee sender of [ff_deposit.py] / [ff_cooldown.py]

    A shallow embedding of the fee helpers ([suggest_fees], [bump_fees],
    [estimate_gas_safe]), of [NonceManager] and of [send_with_rbf], followed
    by the properties of the broadcast engine; then of the rest of the
    scripts ([signed_raw_tx_bytes], [load_keys], [build_w3], the business
    logic and [main]) with their properties.

    The two scripts share these functions verbatim; the single difference is
    the static gas fallback handed to [estimate_gas_safe] (120000 in the
    deposit script, 140000 in the cooldown script), which is a parameter of
    the embedding.

    Numbers.  Python [int] is [Z].  A finite [decimal.Decimal] is embedded
    as its signed coefficient and its exponent, and the operations [+], [*]
    and [/] of the scripts round their exact result to the 28 significant
    digits of Python's default context, ties to even, as the context does;
    an exact quotient moves toward its ideal exponent.  [int(d)] truncates
    toward zero and comparisons are exact.  The exponent bounds of the
    context (one million digits away), the sign of a zero, infinities and
    NaN are outside the embedding: the scripts build their decimals from
    integers, from [1.5], ["1.10"] and ["0.00003"]. *)

From Stdlib Require Import ZArith List String Bool Lia.
Import ListNotations.

Local Open Scope Z_scope.

(* ------------------------------------------------------------------ *)
(** ** Decimal *)

(** A finite [Decimal]: the number [coefficient * 10 ^ exponent]. *)
Record Decimal := mkDecimal {
  coefficient : Z;
  exponent : Z
}.

(** [getcontext().prec] of the default context. *)
Definition PREC : Z := 28.

(** [len(str(n))] for [n >= 0], by repeated division. *)
Fixpoint digits_aux (fuel : nat) (n : Z) : Z :=
  match fuel with
  | O => 1
  | S fuel' => if n <? 10 then 1 else 1 + digits_aux fuel' (n / 10)
  end.

(** The number of decimal digits of the coefficient [n]. *)
Definition digits (n : Z) : Z :=
  digits_aux (Z.to_nat (Z.log2 (Z.abs n))) (Z.abs n).

(** [n >= 0] without its last [d] digits, rounded half to even. *)
Definition round_half_even (n d : Z) : Z :=
  let q := n / 10 ^ d in
  let r := n mod 10 ^ d in
  let half := 5 * 10 ^ (d - 1) in
  if (half <? r) || ((r =? half) && Z.odd q) then q + 1 else q.

(** The rounding every arithmetic result goes through: a coefficient of
    more than [PREC] digits loses its excess digits, and one more when the
    carry of the rounding made it [PREC + 1] digits long again. *)
Definition ctx_fix (x : Decimal) : Decimal :=
  let d := digits (coefficient x) - PREC in
  if d <=? 0 then x
  else
    let coeff := round_half_even (Z.abs (coefficient x)) d in
    if PREC <? digits coeff
    then mkDecimal (Z.sgn (coefficient x) * (coeff / 10)) (exponent x + d + 1)
    else mkDecimal (Z.sgn (coefficient x) * coeff) (exponent x + d).

(** [Decimal(n)] for an [int] [n]: exact. *)
Definition Decimal_of_int (n : Z) : Decimal := mkDecimal n 0.

(** [int(d)]: truncation toward zero. *)
Definition int_of_Decimal (x : Decimal) : Z :=
  if 0 <=? exponent x then coefficient x * 10 ^ exponent x
  else Z.quot (coefficient x) (10 ^ (- exponent x)).

(** [x + y]: the exact sum, rounded. *)
Definition Decimal_add (x y : Decimal) : Decimal :=
  let e := Z.min (exponent x) (exponent y) in
  ctx_fix (mkDecimal (coefficient x * 10 ^ (exponent x - e) +
                      coefficient y * 10 ^ (exponent y - e)) e).

(** [x * y]: the exact product, rounded. *)
Definition Decimal_mul (x y : Decimal) : Decimal :=
  ctx_fix (mkDecimal (coefficient x * coefficient y)
                     (exponent x + exponent y)).

(** The loop of an exact division: trailing zeros leave the coefficient
    while the exponent is below the ideal one. *)
Fixpoint strip_zeros (fuel : nat) (coeff exp ideal_exp : Z) : Decimal :=
  match fuel with
  | O => mkDecimal coeff exp
  | S fuel' =>
      if (exp <? ideal_exp) && (coeff mod 10 =? 0)
      then strip_zeros fuel' (coeff / 10) (exp + 1) ideal_exp
      else mkDecimal coeff exp
  end.

(** [x / y] for [y <> 0]: the quotient to [PREC + 1] digits and more; an
    inexact quotient gets a sticky last digit, an exact one moves toward
    the ideal exponent; then the rounding.  The scripts divide by
    [Decimal(100)] only. *)
Definition Decimal_div (x y : Decimal) : Decimal :=
  let sign := Z.sgn (coefficient x) * Z.sgn (coefficient y) in
  let ideal_exp := exponent x - exponent y in
  if coefficient x =? 0 then ctx_fix (mkDecimal 0 ideal_exp)
  else
    let shift := digits (coefficient y) - digits (coefficient x) + PREC + 1 in
    let exp := exponent x - exponent y - shift in
    let a := Z.abs (coefficient x) in
    let b := Z.abs (coefficient y) in
    let num := if 0 <=? shift then a * 10 ^ shift else a in
    let den := if 0 <=? shift then b else b * 10 ^ (- shift) in
    let coeff := num / den in
    let remainder := num mod den in
    let ans :=
      if negb (remainder =? 0)
      then mkDecimal (if coeff mod 5 =? 0 then coeff + 1 else coeff) exp
      else strip_zeros (Z.to_nat (ideal_exp - exp)) coeff exp ideal_exp in
    ctx_fix (mkDecimal (sign * coefficient ans) (exponent ans)).

(** [x < y]: exact comparison, as a test and as a proposition. *)
Definition Decimal_ltb (x y : Decimal) : bool :=
  let e := Z.min (exponent x) (exponent y) in
  coefficient x * 10 ^ (exponent x - e) <?
  coefficient y * 10 ^ (exponent y - e).

Definition Decimal_lt (x y : Decimal) : Prop :=
  let e := Z.min (exponent x) (exponent y) in
  coefficient x * 10 ^ (exponent x - e) <
  coefficient y * 10 ^ (exponent y - e).

(* ------------------------------------------------------------------ *)
(** ** Fee bids *)

(** The dict [{"maxPriorityFeePerGas": _, "maxFeePerGas": _}]. *)
Record Fees := mkFees {
  maxPriorityFeePerGas : Z;
  maxFeePerGas : Z
}.

(** [BUMP_PCT = 20], the module-level constant of both scripts. *)
Definition BUMP_PCT : Z := 20.
Definition MAX_WAIT : Z := 60.
Definition MAX_RETRIES : Z := 3.

(** The multiplier [Decimal(1) + Decimal(bump_pct)/Decimal(100)]. *)
Definition bump_mul (bump_pct : Decimal) : Decimal :=
  Decimal_add (Decimal_of_int 1) (Decimal_div bump_pct (Decimal_of_int 100)).

Definition bump_fees (fees : Fees) (bump_pct : Decimal) : Fees :=
  let mul := bump_mul bump_pct in
  {| maxPriorityFeePerGas :=
       int_of_Decimal
         (Decimal_mul (Decimal_of_int (maxPriorityFeePerGas fees)) mul);
     maxFeePerGas :=
       int_of_Decimal
         (Decimal_mul (Decimal_of_int (maxFeePerGas fees)) mul) |}.

(** The fee-bid invariant of the data model. *)
Definition fees_ok (f : Fees) : Prop :=
  maxPriorityFeePerGas f <= maxFeePerGas f.

(* ------------------------------------------------------------------ *)
(** ** Transactions and the node *)

(** The transaction dict.  [tx_fields] arrives without ["nonce"] and
    ["gas"]; [send_with_rbf] fills them in. *)
Record Tx := mkTx {
  chainId : Z;
  from : string;
  to : string;
  value : Z;
  data : string;
  tx_maxPriorityFeePerGas : Z;
  tx_maxFeePerGas : Z;
  nonce : option Z;
  gas : option Z
}.

Definition set_nonce (tx : Tx) (n : Z) : Tx :=
  mkTx (chainId tx) (from tx) (to tx) (value tx) (data tx)
       (tx_maxPriorityFeePerGas tx) (tx_maxFeePerGas tx) (Some n) (gas tx).

Definition set_gas (tx : Tx) (g : Z) : Tx :=
  mkTx (chainId tx) (from tx) (to tx) (value tx) (data tx)
       (tx_maxPriorityFeePerGas tx) (tx_maxFeePerGas tx) (nonce tx) (Some g).

(** The two assignments [tx["maxPriorityFeePerGas"] = ...] and
    [tx["maxFeePerGas"] = ...]. *)
Definition set_fees (tx : Tx) (f : Fees) : Tx :=
  mkTx (chainId tx) (from tx) (to tx) (value tx) (data tx)
       (maxPriorityFeePerGas f) (maxFeePerGas f) (nonce tx) (gas tx).

(** Line 111: the fee dict read back from the transaction. *)
Definition fees_of (tx : Tx) : Fees :=
  {| maxPriorityFeePerGas := tx_maxPriorityFeePerGas tx;
     maxFeePerGas := tx_maxFeePerGas tx |}.

Definition TxHash := string.
Definition RawTx := string.

(** One answer of [w3.eth.get_transaction_receipt] inside the polling loop:
    the call raised, returned [None], returned an object without a
    [status] attribute, or returned a receipt with a status.  An exception
    raised while the receipt is printed is swallowed by the same [except]
    and counts as [PollRaised]. *)
Inductive PollResult :=
| PollRaised
| PollNone
| PollNoStatus
| PollReceipt (status : Z).

(** What the node answers during one call.  [None] stands for a raised
    exception.  [fee_history] is the ["baseFeePerGas"] list of
    [w3.eth.fee_history(3, "latest")].  The node is stateful, so the answer
    to a broadcast depends on the round: [send_raw_transaction a raw] is
    the answer to the broadcast of round [a] (the hash, which the source
    also renders as the hex string it returns).  The clock belongs to the
    node side: [get_transaction_receipt max_wait a] lists the answers to
    the polls of round [a] that the test [time.time() - t0 < max_wait] let
    through. *)
Record Web3 := mkWeb3 {
  fee_history : option (list Z);
  gas_price : option Z;
  estimate_gas : Tx -> option Z;
  send_raw_transaction : Z -> RawTx -> option TxHash;
  get_transaction_receipt : Z -> Z -> list PollResult
}.

Record Account := mkAccount {
  address : string;
  sign_transaction : Tx -> option RawTx
}.

(* ------------------------------------------------------------------ *)
(** ** Fee helpers *)

(** [fh["baseFeePerGas"][-1]]: the last element, an [IndexError] on the
    empty list. *)
Fixpoint last_item (l : list Z) : option Z :=
  match l with
  | [] => None
  | [x] => Some x
  | _ :: rest => last_item rest
  end.

(** The [try]/[except] of [suggest_fees]: any exception of the fee-history
    branch leads to [w3.eth.gas_price]. *)
Definition base_fee (w3 : Web3) : option Z :=
  match fee_history w3 with
  | Some l =>
      match last_item l with
      | Some b => Some b
      | None => gas_price w3
      end
  | None => gas_price w3
  end.

Section SuggestFees.

(** [Web3.to_wei(float(priority_gwei), "gwei")], a function of the web3
    library; [None] when it raises. *)
Variable to_wei_gwei : Decimal -> option Z.

Definition suggest_fees (w3 : Web3) (priority_gwei : Decimal) : option Fees :=
  match base_fee w3 with
  | None => None
  | Some b =>
      let base := Decimal_of_int b in
      match to_wei_gwei priority_gwei with
      | None => None
      | Some priority =>
          let max_fee :=
            int_of_Decimal (Decimal_add base (Decimal_of_int (priority * 2))) in
          Some {| maxPriorityFeePerGas := priority; maxFeePerGas := max_fee |}
      end
  end.

End SuggestFees.

(** [estimate_gas_safe]; [Decimal("1.10")] has coefficient 110 and
    exponent -2. *)
Definition estimate_gas_safe (w3 : Web3) (tx : Tx) (fallback_gas : option Z)
  : option Z :=
  match estimate_gas w3 tx with
  | Some gas_est =>
      Some (int_of_Decimal
              (Decimal_mul (Decimal_of_int gas_est) (mkDecimal 110 (-2))))
  | None =>
      match fallback_gas with
      | None => None
      | Some g => Some g
      end
  end.

(* ------------------------------------------------------------------ *)
(** ** Nonce manager *)

(** [NonceManager]: the object is shared by all Operations of one wallet
    and mutated in place, so its state is threaded through the engine. *)
Record NonceManager := mkNonceManager {
  nm_address : string;
  _nonce : Z
}.

(** What an Operation reports on the console when it ends: the three
    distinct final prints of [send_with_rbf]. *)
Inductive Outcome := ConfirmedSuccess | ConfirmedFailure | Abandoned.

(** The observable actions of the engine, in program order. *)
Inductive Event :=
| EvNext (n : Z)                        (* nonce_mgr.next() returned n *)
| EvBack                                (* nonce_mgr.back() *)
| EvEstimateGas (tx : Tx)               (* estimate_gas_safe(w3, tx, ...) *)
| EvBroadcast (tx : Tx) (h : TxHash)    (* send_raw_transaction returned h *)
| EvBump (fees : Fees)                  (* fees = bump_fees(fees, ...) *)
| EvReport (o : Outcome).               (* final print before return *)

Inductive Result (A : Type) :=
| Returned (a : A)
| Raised
| OutOfFuel.
Arguments Returned {A} a.
Arguments Raised {A}.
Arguments OutOfFuel {A}.

(** Computations over the shared nonce manager that log their actions. *)
Definition M (A : Type) : Type :=
  NonceManager -> Result A * NonceManager * list Event.

Definition ret {A} (a : A) : M A := fun nm => (Returned a, nm, []).

Definition bind {A B} (m : M A) (k : A -> M B) : M B :=
  fun nm =>
    match m nm with
    | (Returned a, nm1, t1) =>
        match k a nm1 with
        | (r, nm2, t2) => (r, nm2, t1 ++ t2)
        end
    | (Raised, nm1, t1) => (Raised, nm1, t1)
    | (OutOfFuel, nm1, t1) => (OutOfFuel, nm1, t1)
    end.

Notation "x <- m ;; k" := (bind m (fun x => k))
  (at level 61, m at next level, right associativity).
Notation "m ;;; k" := (bind m (fun _ => k))
  (at level 61, right associativity).

Definition emit (e : Event) : M unit := fun nm => (Returned tt, nm, [e]).

(** An external call that may raise; the exception leaves the function. *)
Definition call {A} (o : option A) : M A :=
  fun nm =>
    match o with
    | Some a => (Returned a, nm, [])
    | None => (Raised, nm, [])
    end.

Definition out_of_fuel {A} : M A := fun nm => (OutOfFuel, nm, []).

Definition NonceManager_init (addr : string) (pending : Z) : NonceManager :=
  {| nm_address := addr; _nonce := pending |}.

Definition current (nm : NonceManager) : Z := _nonce nm.

Definition next : M Z :=
  fun nm =>
    let n := _nonce nm in
    (Returned n, {| nm_address := nm_address nm; _nonce := _nonce nm + 1 |},
     [EvNext n]).

Definition back : M unit :=
  fun nm =>
    (Returned tt,
     {| nm_address := nm_address nm; _nonce := Z.max 0 (_nonce nm - 1) |},
     [EvBack]).

Definition sync (pending : Z) : M unit :=
  fun nm => (Returned tt, {| nm_address := nm_address nm; _nonce := pending |}, []).

(* ------------------------------------------------------------------ *)
(** ** Sender with RBF *)

(** The inner [while time.time() - t0 < max_wait] loop over the answers
    of one round: the first answer that is a receipt with a status ends
    it; everything else is followed by [time.sleep(5)] and another poll. *)
Fixpoint poll_receipt (answers : list PollResult) : option Z :=
  match answers with
  | [] => None
  | PollReceipt status :: _ => Some status
  | _ :: rest => poll_receipt rest
  end.

Section Sender.

(** The literal passed as [fallback_gas=] on line 110. *)
Variable FALLBACK_GAS : Z.

(** The [while True] loop.  [fuel] only makes the recursion structural;
    [send_with_rbf] supplies enough of it ([send_with_rbf_total]). *)
Fixpoint rbf_loop (fuel : nat) (w3 : Web3) (account : Account)
    (max_wait max_retries : Z) (attempt : Z) (tx : Tx) (fees : Fees)
  : M TxHash :=
  match fuel with
  | O => out_of_fuel
  | S fuel' =>
      raw <- call (sign_transaction account tx) ;;
      tx_hex <- call (send_raw_transaction w3 attempt raw) ;;
      emit (EvBroadcast tx tx_hex) ;;;
      match poll_receipt (get_transaction_receipt w3 max_wait attempt) with
      | Some status =>
          emit (EvReport (if status =? 1 then ConfirmedSuccess
                          else ConfirmedFailure)) ;;;
          ret tx_hex
      | None =>
          let attempt := attempt + 1 in
          if attempt >? max_retries then
            emit (EvReport Abandoned) ;;;
            ret tx_hex
          else
            back ;;;
            let fees := bump_fees fees (Decimal_of_int BUMP_PCT) in
            let tx := set_fees tx fees in
            emit (EvBump fees) ;;;
            rbf_loop fuel' w3 account max_wait max_retries attempt tx fees
      end
  end.

(** [send_with_rbf].  The argument [bump_pct] is accepted and, as in the
    source, not read by the body. *)
Definition send_with_rbf (w3 : Web3) (account : Account)
    (tx_fields : Tx) (tag : string)
    (max_wait max_retries : Z) (bump_pct : Decimal) : M TxHash :=
  let tx := tx_fields in
  n <- next ;;
  let tx := set_nonce tx n in
  emit (EvEstimateGas tx) ;;;
  g <- call (estimate_gas_safe w3 tx (Some FALLBACK_GAS)) ;;
  let tx := set_gas tx g in
  let fees := fees_of tx in
  rbf_loop (S (Z.to_nat max_retries)) w3 account max_wait max_retries 0 tx fees.

End Sender.

(** The two scripts. *)
Definition ff_deposit_send_with_rbf := send_with_rbf 120000.
Definition ff_cooldown_send_with_rbf := send_with_rbf 140000.

(* ------------------------------------------------------------------ *)
(** ** Reading a trace *)

Definition is_back (e : Event) : bool :=
  match e with EvBack => true | _ => false end.
Definition is_bump (e : Event) : bool :=
  match e with EvBump _ => true | _ => false end.
Definition is_broadcast (e : Event) : bool :=
  match e with EvBroadcast _ _ => true | _ => false end.
Definition is_estimate (e : Event) : bool :=
  match e with EvEstimateGas _ => true | _ => false end.
Definition is_next (e : Event) : bool :=
  match e with EvNext _ => true | _ => false end.

Definition count (p : Event -> bool) (t : list Event) : nat :=
  List.length (filter p t).

(** The transactions that were broadcast, oldest first. *)
Fixpoint broadcasts (t : list Event) : list Tx :=
  match t with
  | [] => []
  | EvBroadcast tx _ :: rest => tx :: broadcasts rest
  | _ :: rest => broadcasts rest
  end.

(** The nonces handed out by [next], oldest first. *)
Fixpoint nonces_taken (t : list Event) : list Z :=
  match t with
  | [] => []
  | EvNext n :: rest => n :: nonces_taken rest
  | _ :: rest => nonces_taken rest
  end.

(** Two transactions that differ at most in their two fee fields. *)
Definition same_but_fees (a b : Tx) : Prop :=
  chainId a = chainId b /\ from a = from b /\ to a = to b /\
  value a = value b /\ data a = data b /\
  nonce a = nonce b /\ gas a = gas b.

Definition result_of {A} (x : Result A * NonceManager * list Event) : Result A :=
  fst (fst x).
Definition manager_of {A} (x : Result A * NonceManager * list Event) : NonceManager :=
  snd (fst x).
Definition trace_of {A} (x : Result A * NonceManager * list Event) : list Event :=
  snd x.

(* ------------------------------------------------------------------ *)
(** ** Derived notions used in the statements *)

(** The nonce manager after [next()] and after [back()]. *)
Definition next_state (nm : NonceManager) : NonceManager :=
  manager_of (next nm).
Definition back_state (nm : NonceManager) : NonceManager :=
  manager_of (back nm).

Fixpoint backs (k : nat) (nm : NonceManager) : NonceManager :=
  match k with
  | O => nm
  | S k' => backs k' (back_state nm)
  end.

(** The transaction as it stands when the loop is entered: nonce taken,
    gas limit [g] set. *)
Definition draft (tx_fields : Tx) (nm : NonceManager) (g : Z) : Tx :=
  set_gas (set_nonce tx_fields (_nonce nm)) g.

(** Lines 142-144 applied to [tx]: the next replacement. *)
Definition replacement (tx : Tx) : Tx :=
  set_fees tx (bump_fees (fees_of tx) (Decimal_of_int BUMP_PCT)).

(** The transaction of attempt ordinal [k] (0 is the original). *)
Fixpoint nth_attempt (tx : Tx) (k : nat) : Tx :=
  match k with
  | O => tx
  | S k' => nth_attempt (replacement tx) k'
  end.

(** What the polling loop of round [attempt] ends with: the status of the
    receipt it saw, or [None] when the wait budget ran out. *)
Definition round_poll (w3 : Web3) (max_wait attempt : Z) : option Z :=
  poll_receipt (get_transaction_receipt w3 max_wait attempt).

(** Signing [tx] and broadcasting it in round [attempt] succeed and the
    node answers with the hash [h]. *)
Definition round_sends (w3 : Web3) (account : Account) (attempt : Z)
    (tx : Tx) (h : TxHash) : Prop :=
  exists raw, sign_transaction account tx = Some raw /\
              send_raw_transaction w3 attempt raw = Some h.

Definition with_prefix {A} (pre : list Event)
    (x : Result A * NonceManager * list Event)
  : Result A * NonceManager * list Event :=
  match x with
  | (r, nm, t) => (r, nm, pre ++ t)
  end.

(** Two Operations in a row on one nonce manager, each against the node
    as it answers during that Operation (the pattern of
    [ensure_infinite_approve] followed by [step_deposit]). *)
Definition two_operations (FG : Z) (first second : Web3) (account : Account)
    (tx_a tx_b : Tx) (max_wait max_retries : Z) (bump_pct : Decimal)
  : M (TxHash * TxHash) :=
  h1 <- send_with_rbf FG first account tx_a "first" max_wait max_retries
                      bump_pct ;;
  h2 <- send_with_rbf FG second account tx_b "second" max_wait max_retries
                      bump_pct ;;
  ret (h1, h2).

(** The integer [c] rounded to [PREC] significant digits: the value of
    [ctx_fix] at the exponent it was given. *)
Definition quantize (c : Z) : Z :=
  let d := digits c - PREC in
  if d <=? 0 then c
  else Z.sgn c * round_half_even (Z.abs c) d * 10 ^ d.


(** The multiplier of a percentage [p = c * 10 ^ e] as a fraction:
    [1 + p/100 = bump_num p / 10 ^ bump_places p], where [bump_places p]
    is the number of decimal places of [p/100]. *)
Definition bump_places (p : Decimal) : Z := Z.max 0 (2 - exponent p).

Definition bump_num (p : Decimal) : Z :=
  10 ^ bump_places p +
  coefficient p * 10 ^ (exponent p - 2 + bump_places p).

(* ------------------------------------------------------------------ *)
(** ** Sample objects

    Concrete nodes, accounts and drafts on which the statements below are
    instantiated. *)

(** A sample conversion to wei, right at the one priority the scripts
    pass: 1.5 gwei, which [float] holds exactly and which is 1500000000
    wei.  The sample answers [None] at every other input, and no statement
    below uses it there. *)
Definition gwei_to_wei (g : Decimal) : option Z :=
  if (coefficient g =? 15) && (exponent g =? -1) then Some 1500000000
  else None.

(** A node that answers every round with [polls], accepts every
    broadcast and names the hash after the attempt ordinal. *)
Definition sample_hash (attempt : Z) : TxHash :=
  if attempt =? 0 then "0xh0"%string
  else if attempt =? 1 then "0xh1"%string
  else if attempt =? 2 then "0xh2"%string
  else "0xhN"%string.

Definition sample_node (history : option (list Z)) (price : option Z)
    (estimate : option Z) (polls : Z -> list PollResult) : Web3 :=
  {| fee_history := history;
     gas_price := price;
     estimate_gas := fun _ => estimate;
     send_raw_transaction := fun attempt _ => Some (sample_hash attempt);
     get_transaction_receipt := fun _ attempt => polls attempt |}.

Definition sample_account : Account :=
  {| address := "0xA11CE"%string;
     sign_transaction := fun _ => Some "0xsigned"%string |}.

Definition sample_tx_fields : Tx :=
  {| chainId := 1; from := "0xA11CE"%string; to := "0xVAULT"%string;
     value := 0; data := "0xdeadbeef"%string;
     tx_maxPriorityFeePerGas := 100; tx_maxFeePerGas := 200;
     nonce := None; gas := None |}.

Definition sample_manager : NonceManager :=
  NonceManager_init "0xA11CE"%string 5.

(** Poll answers: the first [k] rounds see no receipt, later rounds see
    [final]. *)
Definition timeout_then (k : Z) (final : list PollResult) (attempt : Z)
  : list PollResult :=
  if attempt <? k then [PollNone; PollRaised] else final.

(** A node without gas estimate whose receipts follow [polls]. *)
Definition quiet_node (polls : Z -> list PollResult) : Web3 :=
  sample_node None None None polls.

(* ------------------------------------------------------------------ *)
(** ** Further notions used in the statements *)

Definition is_receipt (a : PollResult) : bool :=
  match a with PollReceipt _ => true | _ => false end.

Definition is_report (e : Event) : bool :=
  match e with EvReport _ => true | _ => false end.

(* ------------------------------------------------------------------ *)
(** ** Utils: web3 v5/v6 compatibility *)

(** What [signed_raw_tx_bytes] can see of its argument: the two attributes
    as [getattr(signed, name, None)] returns them ([None] for a missing
    attribute and for one that holds [None]), and, when the object is a
    [dict], its items ([None] for a missing key, [Some None] for a key
    that holds [None]).  In the engine the two steps
    [account.sign_transaction] and [signed_raw_tx_bytes] are the one field
    [sign_transaction] of [Account], whose [None] covers an exception of
    either. *)
Record Signed := mkSigned {
  attr_rawTransaction : option RawTx;
  attr_raw_transaction : option RawTx;
  as_dict : option (string -> option (option RawTx))
}.

(** [signed_raw_tx_bytes]; [None] is the [AttributeError]. *)
Definition signed_raw_tx_bytes (signed : Signed) : option RawTx :=
  let raw := attr_rawTransaction signed in
  let raw :=
    match raw with
    | None => attr_raw_transaction signed
    | Some _ => raw
    end in
  let raw :=
    match raw with
    | None =>
        match as_dict signed with
        | Some d =>
            match d "rawTransaction"%string with
            | Some v => v
            | None =>
                match d "raw_transaction"%string with
                | Some v => v
                | None => None
                end
            end
        | None => None
        end
    | Some _ => raw
    end in
  raw.

(* ------------------------------------------------------------------ *)
(** ** Keys *)

(** A Python [str] read from the key file: its code points. *)
Definition ustr := list N.

(** [str.isspace] for one code point, the set [str.strip()] removes. *)
Definition is_space (c : N) : bool :=
  ((9 <=? c) && (c <=? 13) || (28 <=? c) && (c <=? 32) ||
   (c =? 133) || (c =? 160) || (c =? 5760) ||
   (8192 <=? c) && (c <=? 8202) || (c =? 8232) || (c =? 8233) ||
   (c =? 8239) || (c =? 8287) || (c =? 12288))%N.

Fixpoint lstrip (s : ustr) : ustr :=
  match s with
  | [] => []
  | c :: rest => if is_space c then lstrip rest else s
  end.

Definition rstrip (s : ustr) : ustr := rev (lstrip (rev s)).

(** [line.strip()]. *)
Definition strip (s : ustr) : ustr := rstrip (lstrip s).

(** [s.startswith("0x")]: code points 48 and 120. *)
Definition startswith_0x (s : ustr) : bool :=
  match s with
  | 48%N :: 120%N :: _ => true
  | _ => false
  end.

(** The test of line 154, [s.startswith("0x") and len(s) >= 66]. *)
Definition key_ok (s : ustr) : bool :=
  startswith_0x s && (66 <=? List.length s)%nat.

Inductive KeysResult :=
| Keys (keys : list ustr)
| ValueError (shown : ustr)     (* the message carries s[:12] *)
| RuntimeError.                 (* "keys.txt пуст." *)

(** The [for line in f] loop of [load_keys] with its accumulator. *)
Fixpoint load_keys_loop (lines : list ustr) (keys : list ustr) : KeysResult :=
  match lines with
  | [] =>
      match keys with
      | [] => RuntimeError
      | _ => Keys keys
      end
  | line :: rest =>
      let s := strip line in
      match s with
      | [] => load_keys_loop rest keys
      | _ =>
          if negb (key_ok s) then ValueError (firstn 12 s)
          else load_keys_loop rest (keys ++ [s])
      end
  end.

(** [load_keys] on the lines of an opened file. *)
Definition load_keys (lines : list ustr) : KeysResult :=
  load_keys_loop lines [].

Definition nonblank (s : ustr) : bool :=
  match s with [] => false | _ => true end.

(** A well-formed key: "0x" and 64 times the letter "a". *)
Definition sample_key : ustr := 48%N :: 120%N :: repeat 97%N 64.

(** A key file: a key with white space around it, a blank line, a key
    with a Windows line end. *)
Definition sample_key_file : list ustr :=
  [ [32%N; 9%N] ++ sample_key ++ [10%N];
    [32%N; 10%N];
    sample_key ++ [13%N; 10%N] ].

(* ------------------------------------------------------------------ *)
(** ** Web3 init *)

Definition ETH_CHAIN_ID : Z := 1.
Definition UINT256_MAX : Z := 2 ^ 256 - 1.

(** [PRIORITY_GWEI = 1.5] as [Decimal(PRIORITY_GWEI)] and
    [MIN_ETH_FOR_TX = Decimal("0.00003")]. *)
Definition PRIORITY_GWEI : Decimal := mkDecimal 15 (-1).
Definition MIN_ETH_FOR_TX : Decimal := mkDecimal 3 (-5).

(** [build_w3]: [rpc] is [os.getenv("ETH_RPC")], [chain] the answer of
    [w3.eth.chain_id] ([None] when the query raises).  [None] is the
    [RuntimeError]; otherwise the result tells whether the chain-id warning
    was printed. *)
Definition build_w3 (rpc : option string) (chain : option Z) : option bool :=
  match rpc with
  | None => None
  | Some EmptyString => None
  | Some _ =>
      match chain with
      | None => Some false
      | Some chain_id =>
          Some (negb (chain_id =? 0) && negb (chain_id =? ETH_CHAIN_ID))
      end
  end.

(* ------------------------------------------------------------------ *)
(** ** Business logic *)

(** The functions of web3 and eth_account that the scripts call and that
    are pure: unit conversion, address checksumming, ABI encoding of the
    three contract calls, [str] of an [int], and key derivation. *)
Record Library := mkLibrary {
  to_wei_gwei : Decimal -> option Z;       (* Web3.to_wei(float(x), "gwei") *)
  from_wei_ether : Z -> Decimal;           (* Decimal(w3.from_wei(x, "ether")) *)
  to_checksum_address : string -> string;
  encode_approve : string -> Z -> string;
  encode_deposit : Z -> string -> string;
  encode_cooldownShares : Z -> string -> string;
  str_of_int : Z -> string;
  from_key : ustr -> option Account        (* Account.from_key(pk) *)
}.

(** What the node answers while one wallet is processed: the pending
    transaction count, the ETH balance, [balanceOf], [allowance], and the
    node as it answers during each Operation of the wallet: the reset to
    zero, the unlimited approval, and the final deposit or cooldown. *)
Record WalletNode := mkWalletNode {
  pending_count : option Z;
  eth_balance : option Z;
  token_balance : option Z;
  allowance_call : option Z;
  during_reset : Web3;
  during_approve : Web3;
  during_final : Web3
}.

(** The dict literal shared by the four call sites,
    [{"chainId": ETH_CHAIN_ID, "from": account.address, "to": ...,
      "value": 0, "data": ..., **fees}]. *)
Definition call_tx (account : Account) (target payload : string) (fees : Fees)
  : Tx :=
  {| chainId := ETH_CHAIN_ID; from := address account; to := target;
     value := 0; data := payload;
     tx_maxPriorityFeePerGas := maxPriorityFeePerGas fees;
     tx_maxFeePerGas := maxFeePerGas fees;
     nonce := None; gas := None |}.

Section Business.

Variable lib : Library.

Definition ADDR_FF_TOKEN : string :=
  to_checksum_address lib "0xFA1C09fC8B491B6A4d3Ff53A10CAd29381b3F949".
Definition ADDR_VAULT : string :=
  to_checksum_address lib "0x1a0C3FfCbd101c6f2f6650DED9964c4A568C4D72".

Definition ensure_infinite_approve (w3 : WalletNode) (account : Account)
    (token spender : string) (needed : Z) (fees : Fees) : M string :=
  current <- call (allowance_call w3) ;;
  if current >=? needed then ret ""%string
  else
    (if current >? 0 then
       let tx0 := call_tx account token (encode_approve lib spender 0) fees in
       send_with_rbf 120000 (during_reset w3) account tx0
         ("approve(FF -> " ++ spender ++ ", 0)")
         MAX_WAIT MAX_RETRIES (Decimal_of_int BUMP_PCT) ;;;
       ret tt
     else ret tt) ;;;
    let tx := call_tx account token (encode_approve lib spender UINT256_MAX)
                      fees in
    send_with_rbf 120000 (during_approve w3) account tx
      ("approve(FF -> " ++ spender ++ ", UINT256_MAX)")
      MAX_WAIT MAX_RETRIES (Decimal_of_int BUMP_PCT).

Definition step_deposit (w3 : WalletNode) (account : Account)
    (vault : string) (assets : Z) (receiver : string) (fees : Fees)
  : M string :=
  let tx := call_tx account vault (encode_deposit lib assets receiver) fees in
  send_with_rbf 120000 (during_final w3) account tx
    ("vault.deposit(" ++ str_of_int lib assets ++ ", " ++ receiver ++ ")")
    MAX_WAIT MAX_RETRIES (Decimal_of_int BUMP_PCT).

Definition step_cooldown_all_shares (w3 : WalletNode) (account : Account)
    (vault_addr : string) (fees : Fees) : M (option string) :=
  bal <- call (token_balance w3) ;;
  if bal =? 0 then ret None
  else
    let tx := call_tx account vault_addr
                (encode_cooldownShares lib bal (address account)) fees in
    h <- send_with_rbf 140000 (during_final w3) account tx
           ("vault.cooldownShares(" ++ str_of_int lib bal ++ ", owner="
            ++ address account ++ ")")
           MAX_WAIT MAX_RETRIES (Decimal_of_int BUMP_PCT) ;;
    ret (Some h).

(** The body of the [try] in [main] of the deposit script. *)
Definition deposit_body (base_fees : Fees) (w3 : WalletNode)
    (acct : Account) : M unit :=
  balance <- call (token_balance w3) ;;
  if balance =? 0 then ret tt
  else
    ensure_infinite_approve w3 acct ADDR_FF_TOKEN ADDR_VAULT balance
                            base_fees ;;;
    step_deposit w3 acct ADDR_VAULT balance (address acct) base_fees ;;;
    ret tt.

(** The body of the [try] in [main] of the cooldown script. *)
Definition cooldown_body (base_fees : Fees) (w3 : WalletNode)
    (acct : Account) : M unit :=
  step_cooldown_all_shares w3 acct ADDR_VAULT base_fees ;;;
  ret tt.

(** How [main] ends: it printed its last line, or an exception escaped. *)
Inductive Exit := Done | Uncaught.

(** One turn of the [for idx, pk in enumerate(keys, 1)] loop.  [None]: an
    exception raised before the [try] escapes; otherwise the events of the
    wallet, none when it is skipped for lack of ETH.  The [except] after
    the [try] swallows whatever the body raises. *)
Definition wallet_turn (body : WalletNode -> Account -> M unit)
    (w3 : WalletNode) (pk : ustr) : option (list Event) :=
  match from_key lib pk with
  | None => None
  | Some acct =>
      match pending_count w3 with
      | None => None
      | Some pending =>
          let nonce_mgr := NonceManager_init (address acct) pending in
          match eth_balance w3 with
          | None => None
          | Some wei =>
              if Decimal_ltb (from_wei_ether lib wei) MIN_ETH_FOR_TX
              then Some []
              else Some (trace_of (body w3 acct nonce_mgr))
          end
      end
  end.

(** The loop over the keys; [node idx] is the node while wallet number
    [idx] is processed.  The result lists the events wallet by wallet. *)
Fixpoint for_each_wallet (body : WalletNode -> Account -> M unit)
    (node : nat -> WalletNode) (idx : nat) (keys : list ustr)
  : list (list Event) * Exit :=
  match keys with
  | [] => ([], Done)
  | pk :: rest =>
      match wallet_turn body (node idx) pk with
      | None => ([], Uncaught)
      | Some events =>
          let (logs, exit) := for_each_wallet body node (S idx) rest in
          (events :: logs, exit)
      end
  end.

(** What a run of a script meets: the environment variable, the chain id
    answer, the lines of [keys.txt] ([None]: the file cannot be opened),
    the node while the fees are suggested, and the node wallet by
    wallet. *)
Record Process := mkProcess {
  env_ETH_RPC : option string;
  chain_id_answer : option Z;
  keys_file : option (list ustr);
  fee_node : Web3;
  wallet_node : nat -> WalletNode
}.

Definition main_with (body : Fees -> WalletNode -> Account -> M unit)
    (p : Process) : list (list Event) * Exit :=
  match build_w3 (env_ETH_RPC p) (chain_id_answer p) with
  | None => ([], Uncaught)
  | Some _ =>
      match keys_file p with
      | None => ([], Uncaught)
      | Some lines =>
          match load_keys lines with
          | Keys keys =>
              match suggest_fees (to_wei_gwei lib) (fee_node p)
                                 PRIORITY_GWEI with
              | None => ([], Uncaught)
              | Some base_fees =>
                  for_each_wallet (body base_fees) (wallet_node p) 1 keys
              end
          | _ => ([], Uncaught)
          end
      end
  end.

(** [main] of [ff_deposit.py] and of [ff_cooldown.py]. *)
Definition ff_deposit_main : Process -> list (list Event) * Exit :=
  main_with deposit_body.
Definition ff_cooldown_main : Process -> list (list Event) * Exit :=
  main_with cooldown_body.

End Business.

(** The transactions handed to the gas estimate, one per Operation. *)
Fixpoint estimates (t : list Event) : list Tx :=
  match t with
  | [] => []
  | EvEstimateGas tx :: rest => tx :: estimates rest
  | _ :: rest => estimates rest
  end.

(** [tx] is a call from [account] to [target] with call data [payload], on
    chain 1 and without ETH value. *)
Definition calls (account : Account) (target payload : string) (tx : Tx)
  : Prop :=
  chainId tx = ETH_CHAIN_ID /\ from tx = address account /\
  to tx = target /\ value tx = 0 /\ data tx = payload.

(** The three calls that [main] makes for a wallet before its [try] all
    answer. *)
Definition turn_starts (lib : Library) (w3 : WalletNode) (pk : ustr) : bool :=
  match from_key lib pk, pending_count w3, eth_balance w3 with
  | Some _, Some _, Some _ => true
  | _, _, _ => false
  end.

(** A library and a wallet for the instances below: a balance in wei is
    that many units of 10^-18 ether, every key derives the sample
    account. *)
Definition sample_library : Library :=
  {| to_wei_gwei := gwei_to_wei;
     from_wei_ether := fun wei => mkDecimal wei (-18);
     to_checksum_address := fun a => a;
     encode_approve := fun spender amount =>
       if amount =? 0 then "approve0"%string else "approveMax"%string;
     encode_deposit := fun _ _ => "deposit"%string;
     encode_cooldownShares := fun _ _ => "cooldown"%string;
     str_of_int := fun _ => "n"%string;
     from_key := fun _ => Some sample_account |}.

Definition sample_wallet (allowance : option Z) : WalletNode :=
  {| pending_count := Some 5;
     eth_balance := Some (10 ^ 18);
     token_balance := Some 1000;
     allowance_call := allowance;
     during_reset := quiet_node (timeout_then 0 [PollReceipt 0]);
     during_approve := quiet_node (timeout_then 0 [PollReceipt 1]);
     during_final := quiet_node (timeout_then 0 [PollReceipt 1]) |}.

(** The first nonce taken in [t], if any, is [n]. *)
Definition starts_at (n : Z) (t : list Event) : Prop :=
  match nonces_taken t with
  | [] => True
  | m :: _ => m = n
  end.

(** The transactions the deposit script is written to send: an approval
    of the vault on the FF token, for zero or for the maximum, or a deposit
    into the vault with the sender as receiver. *)
Definition deposit_script_tx (lib : Library) (tx : Tx) : Prop :=
  chainId tx = ETH_CHAIN_ID /\ value tx = 0 /\
  ((to tx = ADDR_FF_TOKEN lib /\
    (data tx = encode_approve lib (ADDR_VAULT lib) 0 \/
     data tx = encode_approve lib (ADDR_VAULT lib) UINT256_MAX)) \/
   (to tx = ADDR_VAULT lib /\
    exists assets, assets <> 0 /\
                   data tx = encode_deposit lib assets (from tx))).

(** The transactions the cooldown script is written to send. *)
Definition cooldown_script_tx (lib : Library) (tx : Tx) : Prop :=
  chainId tx = ETH_CHAIN_ID /\ value tx = 0 /\ to tx = ADDR_VAULT lib /\
  exists shares, shares <> 0 /\
                 data tx = encode_cooldownShares lib shares (from tx).

(** A node on which wallet number 2 cannot be queried for its ETH
    balance. *)
Definition sample_wallets (idx : nat) : WalletNode :=
  if (idx =? 2)%nat then
    {| pending_count := Some 0; eth_balance := None;
       token_balance := Some 1; allowance_call := Some 0;
       during_reset := quiet_node (fun _ => []);
       during_approve := quiet_node (fun _ => []);
       during_final := quiet_node (fun _ => []) |}
  else sample_wallet (Some 7).

Definition sample_process : Process :=
  {| env_ETH_RPC := Some "https://rpc.example"%string;
     chain_id_answer := Some 1;
     keys_file := Some sample_key_file;
     fee_node := sample_node (Some [10; 20; 30]) None None (fun _ => []);
     wallet_node := fun _ => sample_wallet (Some 7) |}.

(* ================================================================== *)
(** * Properties *)

(* ------------------------------------------------------------------ *)
(** ** Decimal arithmetic *)

(** *** Powers of ten *)

Lemma pow10_pos (k : Z) : 0 <= k -> 0 < 10 ^ k.
Proof. intros H. apply Z.pow_pos_nonneg; lia. Qed.

Lemma pow10_split (a b : Z) : 0 <= a -> 0 <= b -> 10 ^ (a + b) = 10 ^ a * 10 ^ b.
Proof. intros Ha Hb. apply Z.pow_add_r; assumption. Qed.

Lemma pow10_le (a b : Z) : 0 <= a <= b -> 10 ^ a <= 10 ^ b.
Proof. intros H. apply Z.pow_le_mono_r; lia. Qed.

Lemma pow10_lt_inv (a b : Z) : 0 <= b -> 10 ^ a < 10 ^ b -> a < b.
Proof.
  intros Hb H. destruct (Z_lt_le_dec a b) as [Hlt | Hge]; [exact Hlt |].
  assert (10 ^ b <= 10 ^ a) by (apply pow10_le; lia). lia.
Qed.

(** *** The number of digits *)

Lemma digits_aux_spec (fuel : nat) :
  forall n, 1 <= n -> n < 10 ^ (Z.of_nat fuel + 1) ->
    1 <= digits_aux fuel n /\
    10 ^ (digits_aux fuel n - 1) <= n < 10 ^ digits_aux fuel n.
Proof.
  induction fuel as [| fuel IH]; intros n Hn Hlt.
  - simpl in *. change (10 ^ (0 + 1)) with 10 in Hlt. lia.
  - cbn [digits_aux]. destruct (Z.ltb_spec n 10) as [H10 | H10].
    + change (10 ^ (1 - 1)) with 1. change (10 ^ 1) with 10. lia.
    + assert (Hq : 1 <= n / 10) by (apply Z.div_le_lower_bound; lia).
      assert (Hq2 : n / 10 < 10 ^ (Z.of_nat fuel + 1)).
      { apply Z.div_lt_upper_bound; [lia |].
        replace (Z.of_nat (S fuel) + 1) with (1 + (Z.of_nat fuel + 1)) in Hlt
          by lia.
        rewrite pow10_split in Hlt by lia. change (10 ^ 1) with 10 in Hlt.
        exact Hlt. }
      destruct (IH (n / 10) Hq Hq2) as (Hd & Hlo & Hhi).
      set (dg := digits_aux fuel (n / 10)) in *.
      split; [lia |].
      replace (1 + dg - 1) with (1 + (dg - 1)) by lia.
      rewrite !pow10_split by lia. change (10 ^ 1) with 10.
      pose proof (Z.div_mod n 10 ltac:(lia)) as Hdm.
      pose proof (Z.mod_pos_bound n 10 ltac:(lia)) as Hmod.
      split; lia.
Qed.

Lemma digits_spec (n : Z) :
  1 <= n -> 1 <= digits n /\ 10 ^ (digits n - 1) <= n < 10 ^ digits n.
Proof.
  intros Hn. unfold digits. rewrite (Z.abs_eq n) by lia.
  apply digits_aux_spec; [exact Hn |].
  rewrite Z2Nat.id by apply Z.log2_nonneg.
  destruct (Z.log2_spec n ltac:(lia)) as [_ Hhi].
  replace (Z.succ (Z.log2 n)) with (Z.log2 n + 1) in Hhi by lia.
  assert (2 ^ (Z.log2 n + 1) <= 10 ^ (Z.log2 n + 1)).
  { apply Z.pow_le_mono_l. lia. }
  lia.
Qed.

Lemma digits_abs (n : Z) : digits (Z.abs n) = digits n.
Proof. unfold digits. now rewrite Z.abs_idemp. Qed.

Lemma digits_opp (n : Z) : digits (- n) = digits n.
Proof. unfold digits. now rewrite Z.abs_opp. Qed.

Lemma digits_0 : digits 0 = 1.
Proof. reflexivity. Qed.

Lemma digits_pos (n : Z) : 1 <= digits n.
Proof.
  destruct (Z.eq_dec n 0) as [-> | Hn]; [rewrite digits_0; lia |].
  rewrite <- digits_abs. apply digits_spec. lia.
Qed.


Lemma digits_small (c : Z) : Z.abs c < 10 ^ PREC -> digits c <= PREC.
Proof.
  intros H. destruct (Z.eq_dec c 0) as [-> | Hc]; [rewrite digits_0; unfold PREC; lia |].
  rewrite <- digits_abs.
  destruct (digits_spec (Z.abs c) ltac:(lia)) as (Hd & Hlo & _).
  assert (digits (Z.abs c) - 1 < PREC) by (apply pow10_lt_inv; unfold PREC in *; lia).
  lia.
Qed.

Lemma digits_large (c : Z) :
  PREC < digits c -> 10 ^ (digits c - 1) <= Z.abs c < 10 ^ digits c.
Proof.
  intros H. assert (Hc : c <> 0).
  { intros ->. rewrite digits_0 in H. unfold PREC in H. lia. }
  rewrite <- digits_abs. apply digits_spec. lia.
Qed.


(** *** Rounding half to even *)

Lemma round_half_even_bounds (n d : Z) :
  0 <= n -> 0 <= d ->
  n / 10 ^ d <= round_half_even n d <= n / 10 ^ d + 1.
Proof.
  intros Hn Hd. unfold round_half_even.
  destruct (_ || _); lia.
Qed.


Lemma round_half_even_mono (n1 n2 d : Z) :
  0 <= n1 <= n2 -> 0 <= d ->
  round_half_even n1 d <= round_half_even n2 d.
Proof.
  intros Hn Hd.
  pose proof (pow10_pos d Hd) as Hp.
  pose proof (Z.div_le_mono n1 n2 (10 ^ d) Hp ltac:(lia)) as Hq.
  destruct (Z.eq_dec (n1 / 10 ^ d) (n2 / 10 ^ d)) as [Heq | Hne].
  - pose proof (Z.div_mod n1 (10 ^ d) ltac:(lia)) as H1.
    pose proof (Z.div_mod n2 (10 ^ d) ltac:(lia)) as H2.
    assert (Hr : n1 mod 10 ^ d <= n2 mod 10 ^ d) by (rewrite Heq in H1; lia).
    unfold round_half_even. rewrite Heq.
    set (q := n2 / 10 ^ d). set (half := 5 * 10 ^ (d - 1)).
    destruct (Z.ltb_spec half (n1 mod 10 ^ d)) as [Ha | Ha];
      destruct (Z.ltb_spec half (n2 mod 10 ^ d)) as [Hb | Hb];
      destruct (Z.eqb_spec (n1 mod 10 ^ d) half) as [Hc | Hc];
      destruct (Z.eqb_spec (n2 mod 10 ^ d) half) as [He | He];
      destruct (Z.odd q); simpl; lia.
  - pose proof (round_half_even_bounds n1 d ltac:(lia) Hd).
    pose proof (round_half_even_bounds n2 d ltac:(lia) Hd).
    lia.
Qed.

(** *** Rounding to the precision *)

Lemma quantize_exact (c : Z) : Z.abs c < 10 ^ PREC -> quantize c = c.
Proof.
  intros H. unfold quantize. apply digits_small in H.
  destruct (Z.leb_spec (digits c - PREC) 0); [reflexivity | lia].
Qed.

Lemma quantize_opp (c : Z) : quantize (- c) = - quantize c.
Proof.
  unfold quantize. rewrite digits_opp, Z.abs_opp, Z.sgn_opp.
  destruct (digits c - PREC <=? 0); lia.
Qed.

(** For [c >= 0]: what [quantize] does when it rounds. *)
Lemma quantize_rounds (c : Z) :
  0 <= c -> 0 < digits c - PREC ->
  let d := digits c - PREC in
  quantize c = round_half_even c d * 10 ^ d /\
  10 ^ (PREC - 1) * 10 ^ d <= c < 10 ^ PREC * 10 ^ d.
Proof.
  intros Hc Hd d. unfold quantize. fold d.
  destruct (Z.leb_spec d 0) as [H | _]; [lia |].
  destruct (digits_large c ltac:(lia)) as [Hlo Hhi].
  rewrite Z.abs_eq in * by lia.
  assert (Hpos : 0 < c).
  { pose proof (pow10_pos (digits c - 1) ltac:(unfold PREC in *; lia)). lia. }
  rewrite Z.sgn_pos by lia. split; [ring |].
  assert (Hd0 : 0 < d) by (unfold d; lia).
  assert (E1 : 10 ^ (digits c - 1) = 10 ^ (PREC - 1) * 10 ^ d).
  { rewrite <- pow10_split; [f_equal; unfold d; lia | unfold PREC; lia | lia]. }
  assert (E2 : 10 ^ digits c = 10 ^ PREC * 10 ^ d).
  { rewrite <- pow10_split; [f_equal; unfold d; lia | unfold PREC; lia | lia]. }
  lia.
Qed.

Lemma quantize_nonneg (c : Z) :
  0 <= c -> 0 <= quantize c /\ 10 ^ (PREC - 1) * (c - quantize c) <= c.
Proof.
  intros Hc.
  destruct (Z_le_gt_dec (digits c - PREC) 0) as [Hd | Hd].
  - unfold quantize. destruct (Z.leb_spec (digits c - PREC) 0); [| lia].
    rewrite Z.sub_diag. lia.
  - destruct (quantize_rounds c Hc ltac:(lia)) as (-> & Hlo & Hhi).
    set (d := digits c - PREC) in *.
    pose proof (pow10_pos d ltac:(lia)) as Hp.
    pose proof (round_half_even_bounds c d Hc ltac:(lia)) as [Hq _].
    pose proof (Z.div_mod c (10 ^ d) ltac:(lia)) as Hdm.
    pose proof (Z.mod_pos_bound c (10 ^ d) Hp) as Hm.
    pose proof (Z.div_pos c (10 ^ d) Hc Hp) as Hq0.
    pose proof (pow10_pos (PREC - 1) ltac:(unfold PREC; lia)) as Hp27.
    split; [nia |].
    assert (c - round_half_even c d * 10 ^ d < 10 ^ d) by nia.
    nia.
Qed.

Lemma quantize_mono_nonneg (c1 c2 : Z) :
  0 <= c1 <= c2 -> quantize c1 <= quantize c2.
Proof.
  intros [H1 H12].
  destruct (Z_le_gt_dec (digits c1 - PREC) 0) as [Hd1 | Hd1];
    destruct (Z_le_gt_dec (digits c2 - PREC) 0) as [Hd2 | Hd2].
  - unfold quantize.
    destruct (Z.leb_spec (digits c1 - PREC) 0); [| lia].
    destruct (Z.leb_spec (digits c2 - PREC) 0); [| lia]. exact H12.
  - assert (Hs : quantize c1 = c1).
    { unfold quantize. destruct (Z.leb_spec (digits c1 - PREC) 0); [reflexivity | lia]. }
    rewrite Hs.
    destruct (quantize_rounds c2 ltac:(lia) ltac:(lia)) as (-> & Hlo & Hhi).
    set (d := digits c2 - PREC) in *.
    pose proof (pow10_pos d ltac:(lia)) as Hp.
    pose proof (round_half_even_bounds c2 d ltac:(lia) ltac:(lia)) as [Hq _].
    assert (Hc1 : c1 < 10 ^ PREC).
    { destruct (Z.eq_dec c1 0) as [-> | Hne]; [reflexivity |].
      destruct (digits_spec c1 ltac:(lia)) as (_ & _ & Hhi1).
      assert (10 ^ digits c1 <= 10 ^ PREC)
        by (apply pow10_le; pose proof (digits_pos c1); lia).
      lia. }
    assert (Hq27 : 10 ^ (PREC - 1) <= c2 / 10 ^ d).
    { apply Z.div_le_lower_bound; lia. }
    assert (10 ^ PREC = 10 ^ (PREC - 1) * 10) by reflexivity.
    assert (10 <= 10 ^ d).
    { change 10 with (10 ^ 1) at 1. apply pow10_le. lia. }
    nia.
  - exfalso.
    destruct (quantize_rounds c1 H1 ltac:(lia)) as (_ & Hlo & _).
    assert (Hc2 : c2 < 10 ^ PREC).
    { destruct (Z.eq_dec c2 0) as [-> | Hne]; [reflexivity |].
      destruct (digits_spec c2 ltac:(lia)) as (_ & _ & Hhi2).
      assert (10 ^ digits c2 <= 10 ^ PREC)
        by (apply pow10_le; pose proof (digits_pos c2); lia).
      lia. }
    assert (10 ^ PREC = 10 ^ (PREC - 1) * 10) by reflexivity.
    assert (10 <= 10 ^ (digits c1 - PREC)).
    { change 10 with (10 ^ 1) at 1. apply pow10_le. lia. }
    pose proof (pow10_pos (PREC - 1) ltac:(unfold PREC; lia)).
    nia.
  - destruct (quantize_rounds c1 H1 ltac:(lia)) as (-> & Hlo1 & Hhi1).
    destruct (quantize_rounds c2 ltac:(lia) ltac:(lia)) as (-> & Hlo2 & Hhi2).
    set (d1 := digits c1 - PREC) in *. set (d2 := digits c2 - PREC) in *.
    pose proof (pow10_pos d1 ltac:(lia)) as Hp1.
    pose proof (pow10_pos d2 ltac:(lia)) as Hp2.
    pose proof (pow10_pos (PREC - 1) ltac:(unfold PREC; lia)) as Hp27.
    assert (Hd : d1 <= d2).
    { assert (10 ^ (PREC - 1 + d1) < 10 ^ (PREC + d2)).
      { rewrite !pow10_split by (unfold PREC; lia). lia. }
      apply pow10_lt_inv in H; unfold PREC in *; lia. }
    destruct (Z.eq_dec d1 d2) as [Heq | Hne].
    + rewrite Heq. apply Z.mul_le_mono_nonneg_r; [lia |].
      apply round_half_even_mono; lia.
    + pose proof (round_half_even_bounds c1 d1 H1 ltac:(lia)) as [_ Hq1].
      pose proof (round_half_even_bounds c2 d2 ltac:(lia) ltac:(lia)) as [Hq2 _].
      assert (Hq1' : c1 / 10 ^ d1 < 10 ^ PREC)
        by (apply Z.div_lt_upper_bound; lia).
      assert (Hq2' : 10 ^ (PREC - 1) <= c2 / 10 ^ d2)
        by (apply Z.div_le_lower_bound; lia).
      assert (Hpow : 10 ^ d2 = 10 ^ d1 * 10 ^ (d2 - d1)).
      { rewrite <- pow10_split by lia. f_equal. lia. }
      assert (10 <= 10 ^ (d2 - d1)).
      { change 10 with (10 ^ 1) at 1. apply pow10_le. lia. }
      assert (10 ^ PREC = 10 ^ (PREC - 1) * 10) by reflexivity.
      apply Z.le_trans with (10 ^ PREC * 10 ^ d1); [nia |].
      apply Z.le_trans with (10 ^ (PREC - 1) * 10 ^ d2); [| nia].
      rewrite Hpow. nia.
Qed.

Lemma quantize_mono (c1 c2 : Z) : c1 <= c2 -> quantize c1 <= quantize c2.
Proof.
  intros H.
  destruct (Z_le_gt_dec 0 c1) as [H1 | H1].
  - apply quantize_mono_nonneg. lia.
  - destruct (Z_le_gt_dec 0 c2) as [H2 | H2].
    + pose proof (quantize_nonneg c2 H2) as [Hq2 _].
      pose proof (quantize_nonneg (- c1) ltac:(lia)) as [Hq1 _].
      rewrite quantize_opp in Hq1. lia.
    + pose proof (quantize_mono_nonneg (- c2) (- c1) ltac:(lia)) as Hm.
      rewrite !quantize_opp in Hm. lia.
Qed.

(** *** Truncation to [int] *)

Lemma int_of_Decimal_scale (C d e : Z) :
  0 <= d ->
  int_of_Decimal (mkDecimal (C * 10 ^ d) e) = int_of_Decimal (mkDecimal C (e + d)).
Proof.
  intros Hd. unfold int_of_Decimal; cbn [coefficient exponent].
  pose proof (pow10_pos d Hd) as Hp.
  destruct (Z.leb_spec 0 e) as [He | He];
    destruct (Z.leb_spec 0 (e + d)) as [Hed | Hed]; try lia.
  - rewrite pow10_split by lia. ring.
  - assert (E : 10 ^ d = 10 ^ (e + d) * 10 ^ (- e)).
    { rewrite <- pow10_split by lia. f_equal. lia. }
    rewrite E, Z.mul_assoc.
    apply Z.quot_mul. pose proof (pow10_pos (- e) ltac:(lia)). lia.
  - assert (E : 10 ^ (- e) = 10 ^ (- (e + d)) * 10 ^ d).
    { rewrite <- pow10_split by lia. f_equal. lia. }
    rewrite E.
    pose proof (pow10_pos (- (e + d)) ltac:(lia)).
    apply Z.quot_mul_cancel_r; lia.
Qed.

Lemma round_half_even_le (n d : Z) :
  0 <= n -> 0 <= d -> n < 10 ^ PREC * 10 ^ d ->
  round_half_even n d <= 10 ^ PREC.
Proof.
  intros Hn Hd Hlt.
  destruct (round_half_even_bounds n d Hn Hd) as [_ Hhi].
  pose proof (pow10_pos d Hd) as Hp.
  assert (n / 10 ^ d < 10 ^ PREC)
    by (apply Z.div_lt_upper_bound; [exact Hp | lia]).
  lia.
Qed.

(** What [ctx_fix] does when it rounds: the rounded coefficient, less its
    last digit when the carry made it one digit too long. *)
Lemma ctx_fix_round (c e : Z) :
  0 < digits c - PREC ->
  exists j, 0 <= j /\
    coefficient (ctx_fix (mkDecimal c e)) * 10 ^ j =
      Z.sgn c * round_half_even (Z.abs c) (digits c - PREC) /\
    exponent (ctx_fix (mkDecimal c e)) = e + (digits c - PREC) + j.
Proof.
  intros Hd. unfold ctx_fix; cbn [coefficient exponent].
  destruct (Z.leb_spec (digits c - PREC) 0) as [H | _]; [lia |].
  set (d := digits c - PREC) in *.
  set (r := round_half_even (Z.abs c) d).
  destruct (Z.ltb_spec PREC (digits r)) as [Hcarry | Hfit].
  - exists 1. cbn [coefficient exponent].
    split; [lia |]. split; [| lia].
    destruct (digits_large c ltac:(lia)) as [_ Hhi].
    assert (E : 10 ^ digits c = 10 ^ PREC * 10 ^ d).
    { rewrite <- pow10_split; [f_equal; unfold d; lia | unfold PREC; lia | lia]. }
    pose proof (round_half_even_le (Z.abs c) d ltac:(lia) ltac:(lia)
                  ltac:(lia)) as Hle.
    fold r in Hle.
    destruct (round_half_even_bounds (Z.abs c) d ltac:(lia) ltac:(lia))
      as [Hlo _].
    fold r in Hlo.
    pose proof (Z.div_pos (Z.abs c) (10 ^ d) ltac:(lia)
                  (pow10_pos d ltac:(lia))) as Hq.
    assert (Hr : r = 10 ^ PREC).
    { destruct (Z_lt_le_dec r (10 ^ PREC)) as [Hlt | Hge]; [| lia].
      pose proof (digits_small r ltac:(lia)). lia. }
    rewrite Hr. unfold PREC. change (10 ^ 28 / 10) with (10 ^ 27).
    change (10 ^ 28) with (10 ^ 27 * 10 ^ 1). ring.
  - exists 0. cbn [coefficient exponent]. change (10 ^ 0) with 1.
    split; [lia |]. split; lia.
Qed.

Lemma int_of_Decimal_fix (c e : Z) :
  int_of_Decimal (ctx_fix (mkDecimal c e)) =
  int_of_Decimal (mkDecimal (quantize c) e).
Proof.
  unfold quantize.
  destruct (Z.leb_spec (digits c - PREC) 0) as [H | H].
  - unfold ctx_fix; cbn [coefficient exponent].
    destruct (Z.leb_spec (digits c - PREC) 0); [reflexivity | lia].
  - destruct (ctx_fix_round c e H) as (j & Hj & Hc & He).
    destruct (ctx_fix (mkDecimal c e)) as [c' e'].
    cbn [coefficient exponent] in *. subst e'. rewrite <- Hc.
    rewrite <- Z.mul_assoc, <- pow10_split by lia.
    rewrite int_of_Decimal_scale by lia.
    f_equal. f_equal. lia.
Qed.

Lemma int_of_Decimal_mono (c1 c2 e : Z) :
  c1 <= c2 -> int_of_Decimal (mkDecimal c1 e) <= int_of_Decimal (mkDecimal c2 e).
Proof.
  intros H. unfold int_of_Decimal; cbn [coefficient exponent].
  destruct (Z.leb_spec 0 e) as [He | He].
  - pose proof (pow10_pos e He). nia.
  - apply Z.quot_le_mono; [| exact H]. apply pow10_pos. lia.
Qed.

Lemma int_of_Decimal_of_int (n : Z) : int_of_Decimal (Decimal_of_int n) = n.
Proof. unfold int_of_Decimal, Decimal_of_int; simpl. lia. Qed.


Lemma ctx_fix_nonneg (x : Decimal) :
  0 <= coefficient x -> 0 <= coefficient (ctx_fix x).
Proof.
  intros H. destruct x as [c e]. cbn [coefficient] in H.
  destruct (Z_le_gt_dec (digits c - PREC) 0) as [Hd | Hd].
  - unfold ctx_fix; cbn [coefficient exponent].
    destruct (Z.leb_spec (digits c - PREC) 0); [exact H | lia].
  - destruct (ctx_fix_round c e ltac:(lia)) as (j & Hj & Hc & _).
    pose proof (round_half_even_bounds (Z.abs c) (digits c - PREC)
                  ltac:(lia) ltac:(lia)) as [Hq _].
    pose proof (pow10_pos (digits c - PREC) ltac:(lia)) as Hp.
    pose proof (Z.div_pos (Z.abs c) (10 ^ (digits c - PREC))
                  ltac:(lia) Hp).
    pose proof (pow10_pos j Hj).
    pose proof (Z.sgn_nonneg c) as [_ Hs]. specialize (Hs H).
    nia.
Qed.

(** *** Results that need no rounding *)








Lemma strip_zeros_spec (fuel : nat) : forall coeff exp ideal_exp,
  exists j, 0 <= j /\
    coefficient (strip_zeros fuel coeff exp ideal_exp) * 10 ^ j = coeff /\
    exponent (strip_zeros fuel coeff exp ideal_exp) = exp + j.
Proof.
  induction fuel as [| fuel IH]; intros coeff exp ideal_exp; cbn [strip_zeros].
  - exists 0. cbn [coefficient exponent]. change (10 ^ 0) with 1.
    split; lia.
  - destruct ((exp <? ideal_exp) && (coeff mod 10 =? 0)) eqn:Hb.
    + apply andb_prop in Hb as [_ Hmod]. apply Z.eqb_eq in Hmod.
      destruct (IH (coeff / 10) (exp + 1) ideal_exp) as (j & Hj & Hc & He).
      exists (j + 1). split; [lia |]. split; [| lia].
      rewrite pow10_split, Z.mul_assoc, Hc by lia.
      change (10 ^ 1) with 10.
      pose proof (Z.div_mod coeff 10 ltac:(lia)). lia.
    + exists 0. cbn [coefficient exponent]. change (10 ^ 0) with 1.
      split; lia.
Qed.


(* ------------------------------------------------------------------ *)
(** ** Fee helpers *)

Lemma estimate_gas_safe_fallback (w3 : Web3) (tx : Tx) (fb : Z) :
  exists g, estimate_gas_safe w3 tx (Some fb) = Some g.
Proof.
  unfold estimate_gas_safe. destruct (estimate_gas w3 tx); eauto.
Qed.


(** One field of [bump_fees]: the product rounded to the precision, then
    truncated. *)
Lemma bump_field_quantize (f : Z) (m : Decimal) :
  int_of_Decimal (Decimal_mul (Decimal_of_int f) m) =
  int_of_Decimal (mkDecimal (quantize (f * coefficient m)) (exponent m)).
Proof.
  unfold Decimal_mul, Decimal_of_int; cbn [coefficient exponent].
  rewrite Z.add_0_l. apply int_of_Decimal_fix.
Qed.

Lemma bump_field_mono (f1 f2 : Z) (m : Decimal) :
  0 <= coefficient m -> f1 <= f2 ->
  int_of_Decimal (Decimal_mul (Decimal_of_int f1) m) <=
  int_of_Decimal (Decimal_mul (Decimal_of_int f2) m).
Proof.
  intros Hm Hf. rewrite !bump_field_quantize.
  apply int_of_Decimal_mono, quantize_mono. nia.
Qed.

Lemma div_100_nonneg (p : Decimal) :
  0 <= coefficient p ->
  0 <= coefficient (Decimal_div p (Decimal_of_int 100)).
Proof.
  intros Hp. unfold Decimal_div.
  destruct (coefficient p =? 0); apply ctx_fix_nonneg;
    cbn [coefficient Decimal_of_int]; [lia |].
  change (Z.sgn 100) with 1. change (Z.abs 100) with 100.
  set (shift := digits 100 - digits (coefficient p) + PREC + 1).
  set (num := if 0 <=? shift then Z.abs (coefficient p) * 10 ^ shift
              else Z.abs (coefficient p)).
  set (den := if 0 <=? shift then 100 else 100 * 10 ^ (- shift)).
  set (exp := exponent p - 0 - shift).
  assert (Hnum : 0 <= num).
  { unfold num. destruct (Z.leb_spec 0 shift) as [H | H]; [| lia].
    pose proof (pow10_pos shift H). nia. }
  assert (Hden : 0 < den).
  { unfold den. destruct (Z.leb_spec 0 shift) as [H | H]; [lia |].
    pose proof (pow10_pos (- shift) ltac:(lia)). lia. }
  pose proof (Z.div_pos num den Hnum Hden) as Hq.
  pose proof (Z.sgn_nonneg (coefficient p)) as [_ Hs]. specialize (Hs Hp).
  destruct (negb (num mod den =? 0)).
  - cbn [coefficient]. destruct (num / den mod 5 =? 0); nia.
  - match goal with
    | |- context [strip_zeros ?f ?c ?e ?i] =>
        destruct (strip_zeros_spec f c e i) as (j & Hj & Hc & _);
        set (ans := strip_zeros f c e i) in *
    end.
    pose proof (pow10_pos j Hj).
    assert (0 <= coefficient ans) by nia.
    nia.
Qed.

Lemma Decimal_add_nonneg (x y : Decimal) :
  0 <= coefficient x -> 0 <= coefficient y ->
  0 <= coefficient (Decimal_add x y).
Proof.
  intros Hx Hy. unfold Decimal_add. apply ctx_fix_nonneg.
  cbn [coefficient].
  pose proof (pow10_pos (exponent x - Z.min (exponent x) (exponent y))
                ltac:(lia)).
  pose proof (pow10_pos (exponent y - Z.min (exponent x) (exponent y))
                ltac:(lia)).
  nia.
Qed.

Lemma bump_mul_nonneg (p : Decimal) :
  0 <= coefficient p -> 0 <= coefficient (bump_mul p).
Proof.
  intros Hp. unfold bump_mul. apply Decimal_add_nonneg.
  - simpl. lia.
  - now apply div_100_nonneg.
Qed.

(** [bump_num] and [bump_places] spelled out: a percentage with decimal
    places, and one without. *)
Lemma bump_num_small_exponent (p : Decimal) :
  exponent p <= 2 ->
  bump_places p = 2 - exponent p /\
  bump_num p = 10 ^ (2 - exponent p) + coefficient p.
Proof.
  intros He. unfold bump_num, bump_places.
  rewrite Z.max_r by lia.
  replace (exponent p - 2 + (2 - exponent p)) with 0 by lia.
  change (10 ^ 0) with 1. split; [reflexivity | ring].
Qed.

Lemma bump_num_large_exponent (p : Decimal) :
  2 <= exponent p ->
  bump_places p = 0 /\
  bump_num p = 1 + coefficient p * 10 ^ (exponent p - 2).
Proof.
  intros He. unfold bump_num, bump_places.
  rewrite Z.max_l by lia. rewrite Z.add_0_r.
  change (10 ^ 0) with 1. split; reflexivity.
Qed.



Lemma suggest_fees_value (to_wei_gwei : Decimal -> option Z) (w3 : Web3)
    (hint : Decimal) (b p : Z) :
  base_fee w3 = Some b -> to_wei_gwei hint = Some p ->
  suggest_fees to_wei_gwei w3 hint =
  Some {| maxPriorityFeePerGas := p; maxFeePerGas := quantize (b + 2 * p) |}.
Proof.
  intros Hb Hp. unfold suggest_fees. rewrite Hb, Hp. do 2 f_equal.
  unfold Decimal_add, Decimal_of_int; cbn [coefficient exponent].
  change (Z.min 0 0) with 0. change (10 ^ (0 - 0)) with 1.
  rewrite int_of_Decimal_fix.
  unfold int_of_Decimal; cbn [coefficient exponent Z.leb Z.compare].
  change (10 ^ 0) with 1. rewrite Z.mul_1_r. f_equal. lia.
Qed.




(** C5: [maxFeePerGas >= maxPriorityFeePerGas] holds for every bid that
    [suggest_fees] returns from a non-negative base fee (fee history or the
    gas-price fallback) and a non-negative priority, and [bump_fees] with
    [p > 0] preserves it. *)
Theorem fee_invariant :
  (forall (to_wei_gwei : Decimal -> option Z) (w3 : Web3) (hint : Decimal)
          (b p : Z),
      base_fee w3 = Some b -> to_wei_gwei hint = Some p ->
      0 <= b -> 0 <= p ->
      exists bid, suggest_fees to_wei_gwei w3 hint = Some bid /\ fees_ok bid) /\
  (forall (bid : Fees) (p : Decimal),
      fees_ok bid -> 0 < coefficient p -> fees_ok (bump_fees bid p)).
Proof.
  split.
  - intros to_wei_gwei w3 hint b p Hb Hp Hb0 Hp0.
    eexists; split; [apply (suggest_fees_value _ _ _ b p); assumption |].
    unfold fees_ok; cbn [maxPriorityFeePerGas maxFeePerGas].
    pose proof (quantize_nonneg (b + 2 * p) ltac:(lia)) as [_ Hq].
    change (10 ^ (PREC - 1)) with 1000000000000000000000000000 in Hq.
    lia.
  - intros bid p Hok Hp. unfold fees_ok, bump_fees in *; cbv zeta.
    cbn [maxPriorityFeePerGas maxFeePerGas].
    apply bump_field_mono; [| exact Hok].
    apply bump_mul_nonneg. lia.
Qed.

Lemma fee_invariant_witness :
  (exists bid,
      suggest_fees gwei_to_wei (sample_node None (Some 30) None (fun _ => []))
                   (mkDecimal 15 (-1)) = Some bid /\ fees_ok bid) /\
  fees_ok (bump_fees (mkFees 100 200) (Decimal_of_int 20)).
Proof.
  destruct fee_invariant as [Hsuggest Hbump]. split.
  - apply (Hsuggest gwei_to_wei _ (mkDecimal 15 (-1)) 30 1500000000).
    + reflexivity.
    + reflexivity.
    + lia.
    + lia.
  - apply Hbump.
    + unfold fees_ok; simpl; lia.
    + reflexivity.
Defined.

(** C6, as the spec words it, fails once the sum needs more than 28
    digits: with base fee 1 and priority 5 * 10^27 the bid carries
    [maxFeePerGas = 10^28], not [1 + 2 * 5 * 10^27]. *)
Lemma suggest_fees_rounds_large_bid :
  suggest_fees (fun _ => Some (5 * 10 ^ 27))
    (sample_node (Some [1]) None None (fun _ => [])) (mkDecimal 5 18) =
  Some {| maxPriorityFeePerGas := 5 * 10 ^ 27; maxFeePerGas := 10 ^ 28 |} /\
  10 ^ 28 <> 1 + 2 * (5 * 10 ^ 27).
Proof. split; [vm_compute; reflexivity | discriminate]. Qed.

(** C6 (amended): as long as base fee plus twice the priority stays below
    [10^28] in absolute value, [suggest_fees] returns the priority (in wei)
    as [maxPriorityFeePerGas] and base fee plus twice the priority as
    [maxFeePerGas]; the base fee is the last entry of the fee history, or
    the gas price when the fee history is unavailable; the bid depends on
    the node only through these two answers. *)
Theorem suggest_fees_bid (to_wei_gwei : Decimal -> option Z) (w3 : Web3)
    (hint : Decimal) (p : Z) :
  to_wei_gwei hint = Some p ->
  (forall l b, fee_history w3 = Some l -> last_item l = Some b ->
      Z.abs (b + 2 * p) < 10 ^ PREC ->
      suggest_fees to_wei_gwei w3 hint =
      Some {| maxPriorityFeePerGas := p; maxFeePerGas := b + 2 * p |}) /\
  (forall g, fee_history w3 = None \/ fee_history w3 = Some [] ->
      gas_price w3 = Some g ->
      Z.abs (g + 2 * p) < 10 ^ PREC ->
      suggest_fees to_wei_gwei w3 hint =
      Some {| maxPriorityFeePerGas := p; maxFeePerGas := g + 2 * p |}) /\
  (forall w3', fee_history w3' = fee_history w3 ->
      gas_price w3' = gas_price w3 ->
      suggest_fees to_wei_gwei w3' hint = suggest_fees to_wei_gwei w3 hint).
Proof.
  intros Hp. repeat split.
  - intros l b Hl Hb Hbound.
    rewrite (suggest_fees_value _ _ _ b p); [| | exact Hp].
    + now rewrite quantize_exact.
    + unfold base_fee. now rewrite Hl, Hb.
  - intros g Hfail Hg Hbound.
    rewrite (suggest_fees_value _ _ _ g p); [| | exact Hp].
    + now rewrite quantize_exact.
    + unfold base_fee. now destruct Hfail as [-> | ->].
  - intros w3' Hh Hg. unfold suggest_fees, base_fee. now rewrite Hh, Hg.
Qed.

Lemma suggest_fees_bid_witness :
  suggest_fees gwei_to_wei
    (sample_node (Some [10; 20; 30]) (Some 77) None (fun _ => []))
    (mkDecimal 15 (-1)) =
  Some {| maxPriorityFeePerGas := 1500000000;
          maxFeePerGas := 30 + 2 * 1500000000 |}.
Proof.
  apply (suggest_fees_bid gwei_to_wei _ (mkDecimal 15 (-1)) 1500000000 eq_refl)
    with (l := [10; 20; 30]); reflexivity.
Defined.

(** C7, as the spec words it, fails once the product needs more than 28
    digits: for the estimate [10^27 + 5] the code returns
    1100000000000000000000000006, where the estimate plus 10% rounded down
    is 1100000000000000000000000005. *)
Lemma estimate_gas_safe_rounds_large_estimate :
  estimate_gas_safe
    (sample_node None None (Some (10 ^ 27 + 5)) (fun _ => []))
    sample_tx_fields (Some 120000) = Some 1100000000000000000000000006 /\
  (10 ^ 27 + 5) * 110 / 100 = 1100000000000000000000000005.
Proof. split; vm_compute; reflexivity. Qed.

(** C7 (amended): when estimation succeeds with an estimate [g >= 0] such
    that [g * 110 < 10^28], [estimate_gas_safe] returns [g] times 1.10
    rounded down; when estimation fails it returns the fallback if one was
    given, and it raises exactly when estimation fails and no fallback was
    given. *)
Theorem estimate_gas_safe_spec (w3 : Web3) (tx : Tx) (fallback_gas : option Z) :
  (forall g, estimate_gas w3 tx = Some g -> 0 <= g ->
      g * 110 < 10 ^ PREC ->
      estimate_gas_safe w3 tx fallback_gas = Some (g * 110 / 100)) /\
  (forall fb, estimate_gas w3 tx = None -> fallback_gas = Some fb ->
      estimate_gas_safe w3 tx fallback_gas = Some fb) /\
  (estimate_gas_safe w3 tx fallback_gas = None <->
   estimate_gas w3 tx = None /\ fallback_gas = None).
Proof.
  unfold estimate_gas_safe. repeat split.
  - intros g -> Hg Hbound. f_equal.
    rewrite bump_field_quantize; cbn [coefficient exponent].
    rewrite quantize_exact by (rewrite Z.abs_eq; lia).
    unfold int_of_Decimal; cbn [coefficient exponent Z.leb Z.compare Z.opp].
    apply Z.quot_div_nonneg; lia.
  - intros fb -> ->. reflexivity.
  - destruct (estimate_gas w3 tx); [discriminate | reflexivity].
  - destruct (estimate_gas w3 tx); [discriminate |].
    destruct fallback_gas; [discriminate | reflexivity].
  - intros [-> ->]. reflexivity.
Qed.

Lemma estimate_gas_safe_spec_witness :
  estimate_gas_safe (sample_node None None (Some 21005) (fun _ => []))
                    sample_tx_fields (Some 120000) = Some 23105 /\
  estimate_gas_safe (sample_node None None None (fun _ => []))
                    sample_tx_fields (Some 120000) = Some 120000 /\
  estimate_gas_safe (sample_node None None None (fun _ => []))
                    sample_tx_fields None = None.
Proof.
  split; [| split].
  - destruct (estimate_gas_safe_spec
                (sample_node None None (Some 21005) (fun _ => []))
                sample_tx_fields (Some 120000)) as (Hok & _ & _).
    apply (Hok 21005); [reflexivity | lia | vm_compute; reflexivity].
  - destruct (estimate_gas_safe_spec
                (sample_node None None None (fun _ => []))
                sample_tx_fields (Some 120000)) as (_ & Hfb & _).
    apply Hfb; reflexivity.
  - destruct (estimate_gas_safe_spec
                (sample_node None None None (fun _ => []))
                sample_tx_fields None) as (_ & _ & Hraise).
    apply Hraise. split; reflexivity.
Defined.

(* ------------------------------------------------------------------ *)
(** ** One round of the loop *)

Section Rounds.

Variables (w3 : Web3) (account : Account) (max_wait max_retries : Z).

Lemma rbf_loop_receipt fuel attempt tx fees nm h status :
  round_sends w3 account attempt tx h -> round_poll w3 max_wait attempt = Some status ->
  rbf_loop (S fuel) w3 account max_wait max_retries attempt tx fees nm =
  (Returned h, nm,
   [EvBroadcast tx h;
    EvReport (if status =? 1 then ConfirmedSuccess else ConfirmedFailure)]).
Proof.
  intros (raw & Hsign & Hsend) Hpoll. unfold round_poll in Hpoll.
  simpl. unfold bind, call. rewrite Hsign, Hsend, Hpoll. reflexivity.
Qed.

Lemma rbf_loop_abandon fuel attempt tx fees nm h :
  round_sends w3 account attempt tx h -> round_poll w3 max_wait attempt = None ->
  max_retries < attempt + 1 ->
  rbf_loop (S fuel) w3 account max_wait max_retries attempt tx fees nm =
  (Returned h, nm, [EvBroadcast tx h; EvReport Abandoned]).
Proof.
  intros (raw & Hsign & Hsend) Hpoll Hgt. unfold round_poll in Hpoll.
  simpl. unfold bind, call. rewrite Hsign, Hsend, Hpoll.
  destruct (Z.gtb_spec (attempt + 1) max_retries); [reflexivity | lia].
Qed.

Lemma rbf_loop_retry fuel attempt tx fees nm h :
  round_sends w3 account attempt tx h -> round_poll w3 max_wait attempt = None ->
  attempt + 1 <= max_retries ->
  rbf_loop (S fuel) w3 account max_wait max_retries attempt tx fees nm =
  with_prefix
    [EvBroadcast tx h; EvBack;
     EvBump (bump_fees fees (Decimal_of_int BUMP_PCT))]
    (rbf_loop fuel w3 account max_wait max_retries (attempt + 1)
       (set_fees tx (bump_fees fees (Decimal_of_int BUMP_PCT)))
       (bump_fees fees (Decimal_of_int BUMP_PCT)) (back_state nm)).
Proof.
  intros (raw & Hsign & Hsend) Hpoll Hle. unfold round_poll in Hpoll.
  simpl. unfold bind at 1 2 3. unfold call. rewrite Hsign, Hsend. simpl.
  rewrite Hpoll.
  destruct (Z.gtb_spec (attempt + 1) max_retries); [lia |].
  unfold bind, back, emit, back_state, manager_of, with_prefix; simpl.
  destruct (rbf_loop fuel _ _ _ _ _ _ _ _) as [[[r | |] nm2] t2]; reflexivity.
Qed.

End Rounds.

(* ------------------------------------------------------------------ *)
(** ** Every run of the loop *)

Lemma trace_of_with_prefix {A} pre (x : Result A * NonceManager * list Event) :
  trace_of (with_prefix pre x) = pre ++ trace_of x.
Proof. now destruct x as [[r nm] t]. Qed.

Lemma result_of_with_prefix {A} pre (x : Result A * NonceManager * list Event) :
  result_of (with_prefix pre x) = result_of x.
Proof. now destruct x as [[r nm] t]. Qed.

Lemma manager_of_with_prefix {A} pre (x : Result A * NonceManager * list Event) :
  manager_of (with_prefix pre x) = manager_of x.
Proof. now destruct x as [[r nm] t]. Qed.

Lemma with_prefix_app {A} p q (x : Result A * NonceManager * list Event) :
  with_prefix p (with_prefix q x) = with_prefix (p ++ q) x.
Proof. destruct x as [[r nm] t]; simpl. now rewrite app_assoc. Qed.

Lemma count_app p (a b : list Event) :
  count p (a ++ b) = (count p a + count p b)%nat.
Proof. unfold count. now rewrite filter_app, length_app. Qed.

Lemma broadcasts_app (a b : list Event) :
  broadcasts (a ++ b) = broadcasts a ++ broadcasts b.
Proof.
  induction a as [| e a IH]; [reflexivity |].
  destruct e; simpl; now rewrite IH.
Qed.

Lemma same_but_fees_refl tx : same_but_fees tx tx.
Proof. unfold same_but_fees; intuition. Qed.

Lemma same_but_fees_set_fees tx f : same_but_fees tx (set_fees tx f).
Proof. unfold same_but_fees; simpl; intuition. Qed.

Lemma same_but_fees_trans a b c :
  same_but_fees a b -> same_but_fees b c -> same_but_fees a c.
Proof. unfold same_but_fees; intuition congruence. Qed.

(** The three ways one iteration can go. *)
Lemma rbf_loop_cases w3 account max_wait max_retries fuel attempt tx fees nm :
  rbf_loop (S fuel) w3 account max_wait max_retries attempt tx fees nm =
    (Raised, nm, []) \/
  (exists h o,
      rbf_loop (S fuel) w3 account max_wait max_retries attempt tx fees nm =
      (Returned h, nm, [EvBroadcast tx h; EvReport o])) \/
  (exists h,
      attempt + 1 <= max_retries /\
      rbf_loop (S fuel) w3 account max_wait max_retries attempt tx fees nm =
      with_prefix
        [EvBroadcast tx h; EvBack;
         EvBump (bump_fees fees (Decimal_of_int BUMP_PCT))]
        (rbf_loop fuel w3 account max_wait max_retries (attempt + 1)
           (set_fees tx (bump_fees fees (Decimal_of_int BUMP_PCT)))
           (bump_fees fees (Decimal_of_int BUMP_PCT)) (back_state nm))).
Proof.
  destruct (sign_transaction account tx) as [raw |] eqn:Hsign;
    [| left; simpl; unfold bind, call; now rewrite Hsign].
  destruct (send_raw_transaction w3 attempt raw) as [h |] eqn:Hsend;
    [| left; simpl; unfold bind, call; now rewrite Hsign, Hsend].
  assert (Hs : round_sends w3 account attempt tx h) by (exists raw; auto).
  right.
  destruct (round_poll w3 max_wait attempt) as [status |] eqn:Hpoll.
  - left. exists h. eexists.
    apply rbf_loop_receipt with (status := status); assumption.
  - destruct (Z_lt_le_dec max_retries (attempt + 1)) as [Hgt | Hle].
    + left. exists h. eexists. apply rbf_loop_abandon; assumption.
    + right. exists h. split; [exact Hle |]. apply rbf_loop_retry; assumption.
Qed.

(** The loop never estimates gas, never takes a nonce, calls [back] once
    per fee bump, and broadcasts only transactions that agree with the one
    it was entered with outside the two fee fields. *)
Lemma rbf_loop_trace w3 account max_wait max_retries fuel :
  forall attempt tx fees nm,
    let t := trace_of (rbf_loop fuel w3 account max_wait max_retries
                                attempt tx fees nm) in
    count is_estimate t = 0%nat /\ count is_next t = 0%nat /\
    count is_back t = count is_bump t /\
    Forall (same_but_fees tx) (broadcasts t).
Proof.
  induction fuel as [| fuel IH]; intros attempt tx fees nm t; subst t.
  - simpl. repeat split; constructor.
  - destruct (rbf_loop_cases w3 account max_wait max_retries fuel
                attempt tx fees nm) as [-> | [(h & o & ->) | (h & _ & ->)]].
    + simpl. repeat split; constructor.
    + simpl. repeat split. constructor; [apply same_but_fees_refl | constructor].
    + rewrite trace_of_with_prefix, !count_app, broadcasts_app.
      specialize (IH (attempt + 1)
                     (set_fees tx (bump_fees fees (Decimal_of_int BUMP_PCT)))
                     (bump_fees fees (Decimal_of_int BUMP_PCT))
                     (back_state nm)).
      cbv zeta in IH. destruct IH as (He & Hn & Hb & Hall).
      rewrite He, Hn, Hb. repeat split.
      simpl. constructor; [apply same_but_fees_refl |].
      eapply Forall_impl; [| exact Hall].
      intros a Ha. eapply same_but_fees_trans; [| exact Ha].
      apply same_but_fees_set_fees.
Qed.

(** With a positive amount of fuel that exceeds the retries still allowed,
    the loop ends by itself. *)
Lemma rbf_loop_fuel w3 account max_wait max_retries fuel :
  forall attempt tx fees nm,
    (0 < fuel)%nat -> max_retries - attempt < Z.of_nat fuel ->
    result_of (rbf_loop fuel w3 account max_wait max_retries
                        attempt tx fees nm) <> OutOfFuel.
Proof.
  induction fuel as [| fuel IH]; intros attempt tx fees nm Hpos Hfuel;
    [lia |].
  destruct (rbf_loop_cases w3 account max_wait max_retries fuel
              attempt tx fees nm) as [-> | [(h & o & ->) | (h & Hle & ->)]];
    try discriminate.
  rewrite result_of_with_prefix. apply IH; lia.
Qed.

(** [send_with_rbf] always ends: it returns a hash or lets an exception of
    signing or broadcasting through. *)
Theorem send_with_rbf_total FG w3 account tx_fields tag max_wait max_retries
    bump_pct nm :
  result_of (send_with_rbf FG w3 account tx_fields tag max_wait max_retries
                           bump_pct nm) <> OutOfFuel.
Proof.
  unfold send_with_rbf.
  destruct (estimate_gas_safe_fallback w3 (set_nonce tx_fields (_nonce nm)) FG)
    as [g Hg].
  unfold bind at 1. unfold next at 1. unfold bind at 1. unfold emit at 1.
  unfold bind at 1. unfold call at 1. rewrite Hg.
  match goal with
  | |- context [rbf_loop ?f ?a ?b ?c ?d ?e ?t ?fe ?n] =>
      pose proof (rbf_loop_fuel a b c d f e t fe n) as H;
      destruct (rbf_loop f a b c d e t fe n) as [[r nm2] t2]
  end.
  simpl in *. apply H; lia.
Qed.

(* ------------------------------------------------------------------ *)
(** ** The whole call *)

(** Lines 108-114: what happens before the loop is entered. *)
Lemma send_with_rbf_unfold FG w3 account tx_fields tag max_wait max_retries
    bump_pct nm g :
  estimate_gas_safe w3 (set_nonce tx_fields (_nonce nm)) (Some FG) = Some g ->
  send_with_rbf FG w3 account tx_fields tag max_wait max_retries bump_pct nm =
  with_prefix
    [EvNext (_nonce nm); EvEstimateGas (set_nonce tx_fields (_nonce nm))]
    (rbf_loop (S (Z.to_nat max_retries)) w3 account max_wait max_retries 0
       (draft tx_fields nm g) (fees_of (draft tx_fields nm g))
       (next_state nm)).
Proof.
  intros Hg. unfold send_with_rbf.
  unfold bind at 1. unfold next at 1. unfold bind at 1. unfold emit at 1.
  unfold bind at 1. unfold call at 1. rewrite Hg.
  unfold next_state, manager_of, next, draft, with_prefix.
  cbn [fst snd].
  destruct (rbf_loop _ _ _ _ _ _ _ _ _) as [[r nm2] t2]. reflexivity.
Qed.

Lemma fees_of_replacement tx :
  fees_of (replacement tx) = bump_fees (fees_of tx) (Decimal_of_int BUMP_PCT).
Proof. reflexivity. Qed.

(** [k] rounds in a row that are broadcast and time out, with retries left
    after each: the loop arrives at attempt [attempt + k] after [k] calls
    of [back], [k] bumps and [k] broadcasts. *)
Lemma rbf_loop_timeouts w3 account max_wait max_retries (k : nat) :
  forall fuel attempt tx nm,
    (forall i, (i < k)%nat ->
        exists h, round_sends w3 account (attempt + Z.of_nat i)
                              (nth_attempt tx i) h /\
                  round_poll w3 max_wait (attempt + Z.of_nat i) = None) ->
    ((0 < k)%nat -> attempt + Z.of_nat k <= max_retries) ->
    exists pre,
      rbf_loop (k + fuel) w3 account max_wait max_retries attempt tx
               (fees_of tx) nm =
      with_prefix pre
        (rbf_loop fuel w3 account max_wait max_retries
                  (attempt + Z.of_nat k) (nth_attempt tx k)
                  (fees_of (nth_attempt tx k)) (backs k nm)) /\
      count is_back pre = k /\ count is_bump pre = k /\
      count is_broadcast pre = k.
Proof.
  induction k as [| k IH]; intros fuel attempt tx nm Hrounds Hle.
  - exists []. rewrite Z.add_0_r. simpl.
    destruct (rbf_loop _ _ _ _ _ _ _ _ _) as [[r nm2] t2]. auto.
  - destruct (Hrounds 0%nat ltac:(lia)) as (h & Hs & Hp).
    rewrite Z.add_0_r in Hs, Hp. simpl in Hs.
    destruct (IH fuel (attempt + 1) (replacement tx) (back_state nm))
      as (pre & Heq & Hb & Hu & Hc).
    + intros i Hi. destruct (Hrounds (S i) ltac:(lia)) as (h' & Hs' & Hp').
      exists h'. simpl in Hs'.
      replace (attempt + 1 + Z.of_nat i) with (attempt + Z.of_nat (S i)) by lia.
      auto.
    + lia.
    + exists ([EvBroadcast tx h; EvBack;
               EvBump (bump_fees (fees_of tx) (Decimal_of_int BUMP_PCT))]
              ++ pre).
      change (S k + fuel)%nat with (S (k + fuel)).
      rewrite (rbf_loop_retry _ _ _ _ _ _ _ _ _ h) by (auto; lia).
      fold (replacement tx). rewrite <- fees_of_replacement, Heq.
      rewrite with_prefix_app.
      replace (attempt + 1 + Z.of_nat k) with (attempt + Z.of_nat (S k)) by lia.
      rewrite !count_app, Hb, Hu, Hc. simpl. auto.
Qed.

(** C8: when the polling loop of a round sees a receipt whose status is not
    success, [send_with_rbf] returns the hash of that round's transaction
    right after reporting the failure: the trace ends with that broadcast
    and the report, and the bumps, rollbacks and earlier broadcasts are
    only those of the [k] rounds that timed out before. *)
Theorem reverted_receipt_ends_operation FG w3 account tx_fields tag max_wait
    max_retries bump_pct nm g (k : nat) h status :
  estimate_gas_safe w3 (set_nonce tx_fields (_nonce nm)) (Some FG) = Some g ->
  ((0 < k)%nat -> Z.of_nat k <= max_retries) ->
  (forall i, (i < k)%nat ->
      exists h', round_sends w3 account (Z.of_nat i)
                             (nth_attempt (draft tx_fields nm g) i) h' /\
                 round_poll w3 max_wait (Z.of_nat i) = None) ->
  round_sends w3 account (Z.of_nat k) (nth_attempt (draft tx_fields nm g) k) h ->
  round_poll w3 max_wait (Z.of_nat k) = Some status ->
  status <> 1 ->
  exists pre,
    send_with_rbf FG w3 account tx_fields tag max_wait max_retries bump_pct nm =
    (Returned h, backs k (next_state nm),
     pre ++ [EvBroadcast (nth_attempt (draft tx_fields nm g) k) h;
             EvReport ConfirmedFailure]) /\
    count is_broadcast pre = k /\ count is_bump pre = k /\
    count is_back pre = k.
Proof.
  intros Hg Hk Hrounds Hsend Hpoll Hstatus.
  rewrite (send_with_rbf_unfold _ _ _ _ _ _ _ _ _ g Hg).
  replace (S (Z.to_nat max_retries))
    with (k + S (Z.to_nat max_retries - k))%nat
    by lia.
  destruct (rbf_loop_timeouts w3 account max_wait max_retries k
              (S (Z.to_nat max_retries - k)) 0 (draft tx_fields nm g)
              (next_state nm))
    as (pre & Heq & Hb & Hu & Hc); [exact Hrounds | exact Hk |].
  rewrite Heq. simpl (0 + Z.of_nat k).
  rewrite (rbf_loop_receipt _ _ _ _ _ _ _ _ _ h status Hsend Hpoll).
  apply Z.eqb_neq in Hstatus. rewrite Hstatus.
  exists ([EvNext (_nonce nm); EvEstimateGas (set_nonce tx_fields (_nonce nm))]
          ++ pre).
  rewrite !count_app, Hb, Hu, Hc, with_prefix_app.
  repeat split; reflexivity.
Qed.

(** C9: with [max_retries = 0] one transaction is broadcast; when its round
    times out the call reports the abandonment and returns that
    transaction's hash, with no bump and no replacement. *)
Theorem no_retries_single_broadcast FG w3 account tx_fields tag max_wait
    bump_pct nm g h :
  estimate_gas_safe w3 (set_nonce tx_fields (_nonce nm)) (Some FG) = Some g ->
  round_sends w3 account 0 (draft tx_fields nm g) h ->
  result_of (send_with_rbf FG w3 account tx_fields tag max_wait 0 bump_pct nm)
    = Returned h /\
  broadcasts
    (trace_of (send_with_rbf FG w3 account tx_fields tag max_wait 0 bump_pct nm))
    = [draft tx_fields nm g] /\
  count is_bump
    (trace_of (send_with_rbf FG w3 account tx_fields tag max_wait 0 bump_pct nm))
    = 0%nat /\
  (round_poll w3 max_wait 0 = None ->
   send_with_rbf FG w3 account tx_fields tag max_wait 0 bump_pct nm =
   (Returned h, next_state nm,
    [EvNext (_nonce nm); EvEstimateGas (set_nonce tx_fields (_nonce nm));
     EvBroadcast (draft tx_fields nm g) h; EvReport Abandoned])).
Proof.
  intros Hg Hsend.
  rewrite (send_with_rbf_unfold _ _ _ _ _ _ _ _ _ g Hg).
  destruct (round_poll w3 max_wait 0) as [status |] eqn:Hpoll.
  - rewrite (rbf_loop_receipt _ _ _ _ _ _ _ _ _ h status Hsend Hpoll).
    repeat split; try reflexivity. discriminate.
  - rewrite (rbf_loop_abandon _ _ _ _ _ _ _ _ _ h Hsend Hpoll) by lia.
    repeat split; reflexivity.
Qed.

(** C10: in one call the gas limit is estimated once, before the first
    broadcast, one nonce is taken, and every transaction broadcast carries
    that nonce and that gas limit and the chain id, sender, destination,
    value and call data of the draft: only the two fee fields vary. *)
Theorem replacements_change_only_fees FG w3 account tx_fields tag max_wait
    max_retries bump_pct nm :
  exists g rest,
    estimate_gas_safe w3 (set_nonce tx_fields (_nonce nm)) (Some FG) = Some g /\
    trace_of (send_with_rbf FG w3 account tx_fields tag max_wait max_retries
                            bump_pct nm) =
      EvNext (_nonce nm) :: EvEstimateGas (set_nonce tx_fields (_nonce nm))
      :: rest /\
    count is_estimate rest = 0%nat /\ count is_next rest = 0%nat /\
    Forall (same_but_fees (draft tx_fields nm g)) (broadcasts rest).
Proof.
  destruct (estimate_gas_safe_fallback w3 (set_nonce tx_fields (_nonce nm)) FG)
    as [g Hg].
  exists g. eexists. split; [exact Hg |].
  rewrite (send_with_rbf_unfold _ _ _ _ _ _ _ _ _ g Hg), trace_of_with_prefix.
  split; [reflexivity |].
  pose proof (rbf_loop_trace w3 account max_wait max_retries
                (S (Z.to_nat max_retries)) 0 (draft tx_fields nm g)
                (fees_of (draft tx_fields nm g)) (next_state nm)) as H.
  cbv zeta in H. tauto.
Qed.

Lemma reverted_receipt_ends_operation_witness :
  exists pre,
    ff_deposit_send_with_rbf
      (quiet_node (timeout_then 1 [PollNone; PollReceipt 0]))
      sample_account sample_tx_fields "deposit" MAX_WAIT MAX_RETRIES
      (Decimal_of_int BUMP_PCT) sample_manager =
    (Returned "0xh1"%string, backs 1 (next_state sample_manager),
     pre ++ [EvBroadcast
               (nth_attempt (draft sample_tx_fields sample_manager 120000) 1)
               "0xh1"%string;
             EvReport ConfirmedFailure]) /\
    count is_broadcast pre = 1%nat /\ count is_bump pre = 1%nat /\
    count is_back pre = 1%nat.
Proof.
  apply (reverted_receipt_ends_operation 120000
           (quiet_node (timeout_then 1 [PollNone; PollReceipt 0]))
           sample_account sample_tx_fields "deposit" MAX_WAIT MAX_RETRIES
           (Decimal_of_int BUMP_PCT) sample_manager 120000 1 "0xh1"%string 0).
  - reflexivity.
  - intros _. vm_compute. discriminate.
  - intros i Hi. assert (i = 0%nat) as -> by lia.
    exists "0xh0"%string. split; [| reflexivity].
    exists "0xsigned"%string. split; reflexivity.
  - exists "0xsigned"%string. split; reflexivity.
  - reflexivity.
  - discriminate.
Defined.

Lemma no_retries_single_broadcast_witness :
  ff_cooldown_send_with_rbf (quiet_node (fun _ => [PollNone; PollNone]))
    sample_account sample_tx_fields "cooldown" MAX_WAIT 0
    (Decimal_of_int BUMP_PCT) sample_manager =
  (Returned "0xh0"%string, next_state sample_manager,
   [EvNext 5; EvEstimateGas (set_nonce sample_tx_fields 5);
    EvBroadcast (draft sample_tx_fields sample_manager 140000) "0xh0"%string;
    EvReport Abandoned]).
Proof.
  apply (no_retries_single_broadcast 140000
           (quiet_node (fun _ => [PollNone; PollNone]))
           sample_account sample_tx_fields "cooldown" MAX_WAIT
           (Decimal_of_int BUMP_PCT) sample_manager 140000 "0xh0"%string).
  - reflexivity.
  - exists "0xsigned"%string. split; reflexivity.
  - reflexivity.
Defined.

(* ------------------------------------------------------------------ *)
(** ** Where the engine departs from the design *)

(** In every run the loop calls [back] once per fee bump, so once per
    replacement round, and the round that gives up calls it not at all. *)
Lemma back_once_per_bump FG w3 account tx_fields tag max_wait max_retries
    bump_pct nm :
  count is_back
    (trace_of (send_with_rbf FG w3 account tx_fields tag max_wait max_retries
                             bump_pct nm)) =
  count is_bump
    (trace_of (send_with_rbf FG w3 account tx_fields tag max_wait max_retries
                             bump_pct nm)).
Proof.
  destruct (estimate_gas_safe_fallback w3 (set_nonce tx_fields (_nonce nm)) FG)
    as [g Hg].
  rewrite (send_with_rbf_unfold _ _ _ _ _ _ _ _ _ g Hg), trace_of_with_prefix.
  rewrite !count_app.
  pose proof (rbf_loop_trace w3 account max_wait max_retries
                (S (Z.to_nat max_retries)) 0 (draft tx_fields nm g)
                (fees_of (draft tx_fields nm g)) (next_state nm)) as H.
  cbv zeta in H. destruct H as (_ & _ & -> & _). reflexivity.
Qed.

(** C1 at a failing input.  The nonce manager starts at 5.  The first
    Operation times out once, is replaced, and the replacement confirms;
    the second Operation confirms at once.  Both Operations are handed
    nonce 5.  With [max_retries = 0] an abandoned Operation is followed by
    nonce 6, not by the abandoned 5. *)
Theorem nonce_reused_after_replacement :
  nonces_taken
    (trace_of
       (two_operations 120000
          (quiet_node (timeout_then 1 [PollReceipt 1]))
          (quiet_node (timeout_then 0 [PollReceipt 1]))
          sample_account sample_tx_fields sample_tx_fields
          MAX_WAIT MAX_RETRIES (Decimal_of_int BUMP_PCT) sample_manager))
  = [5; 5] /\
  result_of
    (two_operations 120000
       (quiet_node (timeout_then 1 [PollReceipt 1]))
       (quiet_node (timeout_then 0 [PollReceipt 1]))
       sample_account sample_tx_fields sample_tx_fields
       MAX_WAIT MAX_RETRIES (Decimal_of_int BUMP_PCT) sample_manager)
  = Returned ("0xh1"%string, "0xh0"%string) /\
  nonces_taken
    (trace_of
       (two_operations 120000
          (quiet_node (fun _ => []))
          (quiet_node (timeout_then 0 [PollReceipt 1]))
          sample_account sample_tx_fields sample_tx_fields
          MAX_WAIT 0 (Decimal_of_int BUMP_PCT) sample_manager))
  = [5; 6].
Proof. repeat split; vm_compute; reflexivity. Qed.

(** C2 at a failing input (Scenario B).  The node never returns a receipt
    and [max_retries = 2]: [back] is called in each of the two replacement
    rounds and not in the round that abandons, so twice in all, and the
    cursor that started at 5 ends at 4. *)
Theorem back_called_on_each_replacement :
  trace_of
    (ff_cooldown_send_with_rbf (quiet_node (fun _ => [PollNone]))
       sample_account sample_tx_fields "cooldown" MAX_WAIT 2
       (Decimal_of_int BUMP_PCT) sample_manager)
  = [EvNext 5; EvEstimateGas (set_nonce sample_tx_fields 5);
     EvBroadcast (nth_attempt (draft sample_tx_fields sample_manager 140000) 0)
                 "0xh0"%string;
     EvBack; EvBump (mkFees 120 240);
     EvBroadcast (nth_attempt (draft sample_tx_fields sample_manager 140000) 1)
                 "0xh1"%string;
     EvBack; EvBump (mkFees 144 288);
     EvBroadcast (nth_attempt (draft sample_tx_fields sample_manager 140000) 2)
                 "0xh2"%string;
     EvReport Abandoned] /\
  count is_back
    (trace_of
       (ff_cooldown_send_with_rbf (quiet_node (fun _ => [PollNone]))
          sample_account sample_tx_fields "cooldown" MAX_WAIT 2
          (Decimal_of_int BUMP_PCT) sample_manager)) = 2%nat /\
  current
    (manager_of
       (ff_cooldown_send_with_rbf (quiet_node (fun _ => [PollNone]))
          sample_account sample_tx_fields "cooldown" MAX_WAIT 2
          (Decimal_of_int BUMP_PCT) sample_manager)) = 4.
Proof. repeat split; vm_compute; reflexivity. Qed.

(** C4 at a failing input.  [send_with_rbf] does not read its [bump_pct]
    argument: called with 50, the replacement carries the bid bumped by
    the module constant 20, (120, 240), where a 50% bump of (100, 200) is
    (150, 300); and any two values of the argument give the same run. *)
Theorem bump_pct_argument_ignored :
  map fees_of
    (broadcasts
       (trace_of
          (ff_deposit_send_with_rbf
             (quiet_node (timeout_then 1 [PollReceipt 1]))
             sample_account sample_tx_fields "deposit" MAX_WAIT MAX_RETRIES
             (Decimal_of_int 50) sample_manager)))
  = [mkFees 100 200; mkFees 120 240] /\
  bump_fees (mkFees 100 200) (Decimal_of_int 50) = mkFees 150 300 /\
  forall FG w3 account tx_fields tag max_wait max_retries (p q : Decimal),
    send_with_rbf FG w3 account tx_fields tag max_wait max_retries p =
    send_with_rbf FG w3 account tx_fields tag max_wait max_retries q.
Proof. repeat split. Qed.

(* ================================================================== *)
(** * Further properties of the engine *)

(* ------------------------------------------------------------------ *)
(** ** Nonce manager *)

Lemma backs_succ k nm : backs (S k) nm = back_state (backs k nm).
Proof.
  revert nm. induction k as [| k IH]; intros nm; [reflexivity |].
  change (backs (S (S k)) nm) with (backs (S k) (back_state nm)).
  rewrite IH. reflexivity.
Qed.

(** [next()] followed by [back()] puts a manager with a non-negative
    cursor back where it was and hands out the old cursor value. *)
Theorem next_back_restores (nm : NonceManager) :
  0 <= _nonce nm ->
  (n <- next ;; back ;;; ret n) nm = (Returned (_nonce nm), nm, [EvNext (_nonce nm); EvBack]).
Proof.
  intros H. destruct nm as [a n]; simpl in *.
  unfold bind, next, back, ret; simpl.
  replace (Z.max 0 (n + 1 - 1)) with n by lia. reflexivity.
Qed.

Lemma next_back_restores_witness :
  (n <- next ;; back ;;; ret n) sample_manager =
  (Returned 5, sample_manager, [EvNext 5; EvBack]).
Proof. apply (next_back_restores sample_manager). simpl; lia. Defined.

Lemma backs_cursor (k : nat) (nm : NonceManager) :
  0 <= _nonce nm ->
  _nonce (backs k nm) = Z.max 0 (_nonce nm - Z.of_nat k) /\
  nm_address (backs k nm) = nm_address nm.
Proof.
  intros H. induction k as [| k [IHn IHa]].
  - simpl. split; [lia | reflexivity].
  - rewrite backs_succ. unfold back_state, manager_of, back; simpl.
    rewrite IHn. split; [lia | exact IHa].
Qed.

(** [k] calls of [back()] lower a non-negative cursor by [k] and stop at
    zero; the address is untouched. *)
Theorem backs_floor_at_zero (k : nat) (nm : NonceManager) :
  0 <= _nonce nm ->
  _nonce (backs k nm) = Z.max 0 (_nonce nm - Z.of_nat k) /\
  nm_address (backs k nm) = nm_address nm.
Proof.
  intros H. induction k as [| k [IHn IHa]].
  - simpl. split; [lia | reflexivity].
  - rewrite backs_succ. unfold back_state, manager_of, back; simpl.
    rewrite IHn. split; [lia | exact IHa].
Qed.

Lemma backs_floor_at_zero_witness :
  _nonce (backs 7 sample_manager) = 0 /\
  nm_address (backs 7 sample_manager) = nm_address sample_manager.
Proof. apply (backs_floor_at_zero 7 sample_manager). simpl; lia. Defined.

(* ------------------------------------------------------------------ *)
(** ** The polling loop *)

(** The polling loop ends with the status of the first receipt among the
    answers of the round, whatever errors and empty answers come before
    it, and times out exactly when the round has no receipt at all. *)
Theorem poll_receipt_first_receipt (answers : list PollResult) :
  (forall status,
      poll_receipt answers = Some status <->
      exists before after,
        answers = before ++ PollReceipt status :: after /\
        forallb (fun a => negb (is_receipt a)) before = true) /\
  (poll_receipt answers = None <->
   forallb (fun a => negb (is_receipt a)) answers = true).
Proof.
  induction answers as [| a rest [IHs IHn]].
  - split; [intros status; split | split]; try reflexivity; try discriminate.
    intros (before & after & Heq & _). destruct before; discriminate.
  - split.
    + intros status. split.
      * intros H. destruct a; simpl in H;
          try (apply IHs in H; destruct H as (b & c & -> & Hb);
               eexists (_ :: b), c; split; [reflexivity | exact Hb]).
        inversion H; subst. exists [], rest. split; reflexivity.
      * intros (before & after & Heq & Hb).
        destruct before as [| b before]; simpl in Heq; inversion Heq; subst.
        -- reflexivity.
        -- simpl in Hb. apply andb_prop in Hb as [Hb1 Hb2].
           destruct b; simpl in Hb1; try discriminate;
             simpl; apply IHs; eauto.
    + destruct a; simpl; try exact IHn. split; discriminate.
Qed.

(* ------------------------------------------------------------------ *)
(** ** Every run of [send_with_rbf] *)

(** The loop broadcasts at most once more than the retries it still has,
    and bumps at most as often as it has retries. *)
Lemma rbf_loop_bounds w3 account max_wait max_retries fuel :
  forall attempt tx fees nm,
    let t := trace_of (rbf_loop fuel w3 account max_wait max_retries
                                attempt tx fees nm) in
    Z.of_nat (count is_broadcast t) <= Z.max 0 (max_retries - attempt) + 1 /\
    Z.of_nat (count is_bump t) <= Z.max 0 (max_retries - attempt).
Proof.
  induction fuel as [| fuel IH]; intros attempt tx fees nm t; subst t.
  - change (trace_of (rbf_loop 0 w3 account max_wait max_retries attempt tx
                               fees nm)) with (@nil Event).
    change (count is_broadcast []) with 0%nat.
    change (count is_bump []) with 0%nat. lia.
  - destruct (rbf_loop_cases w3 account max_wait max_retries fuel
                attempt tx fees nm) as [-> | [(h & o & ->) | (h & Hle & ->)]].
    + change (count is_broadcast (trace_of (@Raised TxHash, nm, [])))
        with 0%nat.
      change (count is_bump (trace_of (@Raised TxHash, nm, []))) with 0%nat.
      lia.
    + change (count is_broadcast
                (trace_of (Returned h, nm, [EvBroadcast tx h; EvReport o])))
        with 1%nat.
      change (count is_bump
                (trace_of (Returned h, nm, [EvBroadcast tx h; EvReport o])))
        with 0%nat.
      lia.
    + rewrite trace_of_with_prefix, !count_app.
      specialize (IH (attempt + 1)
                     (set_fees tx (bump_fees fees (Decimal_of_int BUMP_PCT)))
                     (bump_fees fees (Decimal_of_int BUMP_PCT))
                     (back_state nm)).
      cbv zeta in IH. destruct IH as (Hb & Hu).
      rewrite !Nat2Z.inj_add.
      change (count is_broadcast
                [EvBroadcast tx h; EvBack;
                 EvBump (bump_fees fees (Decimal_of_int BUMP_PCT))])
        with 1%nat.
      change (count is_bump
                [EvBroadcast tx h; EvBack;
                 EvBump (bump_fees fees (Decimal_of_int BUMP_PCT))])
        with 1%nat.
      lia.
Qed.

(** The retry budget bounds the traffic of every call: at most
    [max_retries + 1] broadcasts and at most [max_retries] fee bumps (one
    broadcast and no bump when [max_retries] is negative). *)
Theorem send_with_rbf_bounded FG w3 account tx_fields tag max_wait max_retries
    bump_pct nm :
  Z.of_nat (count is_broadcast
              (trace_of (send_with_rbf FG w3 account tx_fields tag max_wait
                                       max_retries bump_pct nm)))
    <= Z.max 0 max_retries + 1 /\
  Z.of_nat (count is_bump
              (trace_of (send_with_rbf FG w3 account tx_fields tag max_wait
                                       max_retries bump_pct nm)))
    <= Z.max 0 max_retries.
Proof.
  destruct (estimate_gas_safe_fallback w3 (set_nonce tx_fields (_nonce nm)) FG)
    as [g Hg].
  rewrite (send_with_rbf_unfold _ _ _ _ _ _ _ _ _ g Hg), trace_of_with_prefix.
  rewrite !count_app.
  pose proof (rbf_loop_bounds w3 account max_wait max_retries
                (S (Z.to_nat max_retries)) 0 (draft tx_fields nm g)
                (fees_of (draft tx_fields nm g)) (next_state nm)) as H.
  cbv zeta in H. rewrite Z.sub_0_r in H.
  rewrite !Nat2Z.inj_add.
  change (count is_broadcast
            [EvNext (_nonce nm);
             EvEstimateGas (set_nonce tx_fields (_nonce nm))]) with 0%nat.
  change (count is_bump
            [EvNext (_nonce nm);
             EvEstimateGas (set_nonce tx_fields (_nonce nm))]) with 0%nat.
  lia.
Qed.

Lemma count_nil p : count p [] = 0%nat.
Proof. reflexivity. Qed.

Lemma length_broadcasts t : List.length (broadcasts t) = count is_broadcast t.
Proof.
  unfold count. induction t as [| e t IH]; [reflexivity |].
  destruct e; simpl; now rewrite IH.
Qed.

(** How a run of the loop ends: a returned hash is that of the last
    broadcast, which is followed by the only report; a run that raises
    reports nothing. *)
Lemma rbf_loop_end w3 account max_wait max_retries fuel :
  forall attempt tx fees nm,
    match result_of (rbf_loop fuel w3 account max_wait max_retries
                              attempt tx fees nm) with
    | Returned h =>
        exists pre tx' o,
          trace_of (rbf_loop fuel w3 account max_wait max_retries
                             attempt tx fees nm) =
          pre ++ [EvBroadcast tx' h; EvReport o] /\
          count is_report pre = 0%nat
    | _ =>
        count is_report
          (trace_of (rbf_loop fuel w3 account max_wait max_retries
                              attempt tx fees nm)) = 0%nat
    end.
Proof.
  induction fuel as [| fuel IH]; intros attempt tx fees nm; [reflexivity |].
  destruct (rbf_loop_cases w3 account max_wait max_retries fuel
              attempt tx fees nm) as [-> | [(h & o & ->) | (h & Hle & ->)]].
  - reflexivity.
  - exists [], tx, o. split; reflexivity.
  - rewrite result_of_with_prefix, trace_of_with_prefix.
    specialize (IH (attempt + 1)
                   (set_fees tx (bump_fees fees (Decimal_of_int BUMP_PCT)))
                   (bump_fees fees (Decimal_of_int BUMP_PCT))
                   (back_state nm)).
    destruct (result_of _) as [h' | |].
    + destruct IH as (pre & tx' & o & -> & Hpre).
      eexists (_ ++ pre), tx', o. split; [now rewrite app_assoc |].
      rewrite count_app, Hpre. reflexivity.
    + rewrite count_app, IH. reflexivity.
    + rewrite count_app, IH. reflexivity.
Qed.

(** Every call that returns a hash returns the hash of the transaction it
    broadcast last, and the trace ends with that broadcast followed by the
    single final report; a call that raises prints no final report. *)
Theorem send_with_rbf_returns_last_hash FG w3 account tx_fields tag max_wait
    max_retries bump_pct nm :
  (forall h,
      result_of (send_with_rbf FG w3 account tx_fields tag max_wait
                               max_retries bump_pct nm) = Returned h ->
      exists pre tx o,
        trace_of (send_with_rbf FG w3 account tx_fields tag max_wait
                                max_retries bump_pct nm) =
        pre ++ [EvBroadcast tx h; EvReport o] /\
        count is_report pre = 0%nat) /\
  (result_of (send_with_rbf FG w3 account tx_fields tag max_wait
                            max_retries bump_pct nm) = Raised ->
   count is_report
     (trace_of (send_with_rbf FG w3 account tx_fields tag max_wait
                              max_retries bump_pct nm)) = 0%nat).
Proof.
  destruct (estimate_gas_safe_fallback w3 (set_nonce tx_fields (_nonce nm)) FG)
    as [g Hg].
  rewrite (send_with_rbf_unfold _ _ _ _ _ _ _ _ _ g Hg).
  rewrite result_of_with_prefix, trace_of_with_prefix.
  pose proof (rbf_loop_end w3 account max_wait max_retries
                (S (Z.to_nat max_retries)) 0 (draft tx_fields nm g)
                (fees_of (draft tx_fields nm g)) (next_state nm)) as H.
  split.
  - intros h Hr. rewrite Hr in H. destruct H as (pre & tx & o & -> & Hpre).
    eexists (_ ++ pre), tx, o. split; [now rewrite app_assoc |].
    rewrite count_app, Hpre. reflexivity.
  - intros Hr. rewrite Hr in H. rewrite count_app, H. reflexivity.
Qed.

Lemma send_with_rbf_returns_last_hash_witness :
  exists pre tx o,
    trace_of (ff_deposit_send_with_rbf
                (quiet_node (timeout_then 2 [PollReceipt 1]))
                sample_account sample_tx_fields "deposit" MAX_WAIT MAX_RETRIES
                (Decimal_of_int BUMP_PCT) sample_manager) =
    pre ++ [EvBroadcast tx "0xh2"%string; EvReport o] /\
    count is_report pre = 0%nat.
Proof.
  apply (send_with_rbf_returns_last_hash 120000
           (quiet_node (timeout_then 2 [PollReceipt 1]))
           sample_account sample_tx_fields "deposit" MAX_WAIT MAX_RETRIES
           (Decimal_of_int BUMP_PCT) sample_manager).
  reflexivity.
Defined.

(** Where the loop leaves the nonce manager: one [back] per fee bump. *)
Lemma rbf_loop_manager w3 account max_wait max_retries fuel :
  forall attempt tx fees nm,
    manager_of (rbf_loop fuel w3 account max_wait max_retries
                         attempt tx fees nm) =
    backs (count is_bump
             (trace_of (rbf_loop fuel w3 account max_wait max_retries
                                 attempt tx fees nm))) nm.
Proof.
  induction fuel as [| fuel IH]; intros attempt tx fees nm; [reflexivity |].
  destruct (rbf_loop_cases w3 account max_wait max_retries fuel
              attempt tx fees nm) as [-> | [(h & o & ->) | (h & Hle & ->)]];
    try reflexivity.
  rewrite manager_of_with_prefix, trace_of_with_prefix, count_app, IH.
  reflexivity.
Qed.

(** The cursor after a call, whether it returned or raised: one step
    forward for the nonce taken and one step back, floored at zero, for each
    replacement round. *)
Theorem send_with_rbf_cursor FG w3 account tx_fields tag max_wait max_retries
    bump_pct nm :
  0 <= _nonce nm ->
  current (manager_of (send_with_rbf FG w3 account tx_fields tag max_wait
                                     max_retries bump_pct nm)) =
  Z.max 0 (_nonce nm + 1 -
           Z.of_nat (count is_bump
                       (trace_of (send_with_rbf FG w3 account tx_fields tag
                                    max_wait max_retries bump_pct nm)))).
Proof.
  intros Hn.
  destruct (estimate_gas_safe_fallback w3 (set_nonce tx_fields (_nonce nm)) FG)
    as [g Hg].
  rewrite (send_with_rbf_unfold _ _ _ _ _ _ _ _ _ g Hg).
  rewrite manager_of_with_prefix, trace_of_with_prefix, count_app.
  rewrite rbf_loop_manager. unfold current.
  destruct (backs_cursor
              (count is_bump
                 (trace_of (rbf_loop (S (Z.to_nat max_retries)) w3 account
                              max_wait max_retries 0 (draft tx_fields nm g)
                              (fees_of (draft tx_fields nm g))
                              (next_state nm))))
              (next_state nm)) as [-> _].
  - unfold next_state, manager_of, next; simpl. lia.
  - reflexivity.
Qed.

Lemma send_with_rbf_cursor_witness :
  current (manager_of (ff_deposit_send_with_rbf
                         (quiet_node (timeout_then 2 [PollReceipt 1]))
                         sample_account sample_tx_fields "deposit" MAX_WAIT
                         MAX_RETRIES (Decimal_of_int BUMP_PCT) sample_manager))
  = 4.
Proof.
  unfold ff_deposit_send_with_rbf.
  rewrite (send_with_rbf_cursor 120000
             (quiet_node (timeout_then 2 [PollReceipt 1]))
             sample_account sample_tx_fields "deposit" MAX_WAIT MAX_RETRIES
             (Decimal_of_int BUMP_PCT) sample_manager).
  - reflexivity.
  - simpl; lia.
Defined.

Lemma rbf_loop_raise w3 account max_wait max_retries fuel attempt tx fees nm :
  sign_transaction account tx = None \/
  (exists raw, sign_transaction account tx = Some raw /\
               send_raw_transaction w3 attempt raw = None) ->
  rbf_loop (S fuel) w3 account max_wait max_retries attempt tx fees nm =
  (Raised, nm, []).
Proof.
  intros [Hsign | (raw & Hsign & Hsend)]; simpl; unfold bind, call.
  - now rewrite Hsign.
  - now rewrite Hsign, Hsend.
Qed.

(** When signing or the first broadcast raises, the exception leaves
    [send_with_rbf] with the nonce already taken: nothing was broadcast,
    nothing is rolled back, and the cursor stays one past the unused
    nonce. *)
Theorem send_with_rbf_raise_keeps_nonce FG w3 account tx_fields tag max_wait
    max_retries bump_pct nm g :
  estimate_gas_safe w3 (set_nonce tx_fields (_nonce nm)) (Some FG) = Some g ->
  sign_transaction account (draft tx_fields nm g) = None \/
  (exists raw, sign_transaction account (draft tx_fields nm g) = Some raw /\
               send_raw_transaction w3 0 raw = None) ->
  send_with_rbf FG w3 account tx_fields tag max_wait max_retries bump_pct nm =
  (Raised, next_state nm,
   [EvNext (_nonce nm); EvEstimateGas (set_nonce tx_fields (_nonce nm))]) /\
  current (next_state nm) = _nonce nm + 1.
Proof.
  intros Hg Hfail.
  rewrite (send_with_rbf_unfold _ _ _ _ _ _ _ _ _ g Hg).
  rewrite rbf_loop_raise by exact Hfail. split; reflexivity.
Qed.

Lemma send_with_rbf_raise_keeps_nonce_witness :
  ff_deposit_send_with_rbf (quiet_node (fun _ => []))
    (mkAccount "0xA11CE" (fun _ => None)) sample_tx_fields "deposit"
    MAX_WAIT MAX_RETRIES (Decimal_of_int BUMP_PCT) sample_manager =
  (Raised, next_state sample_manager,
   [EvNext 5; EvEstimateGas (set_nonce sample_tx_fields 5)]) /\
  current (next_state sample_manager) = 5 + 1.
Proof.
  apply (send_with_rbf_raise_keeps_nonce 120000 (quiet_node (fun _ => []))
           (mkAccount "0xA11CE" (fun _ => None)) sample_tx_fields "deposit"
           MAX_WAIT MAX_RETRIES (Decimal_of_int BUMP_PCT) sample_manager
           120000).
  - reflexivity.
  - left. reflexivity.
Defined.

(** A receipt seen in round [k], after [k] rounds that timed out. *)
Lemma receipt_after_timeouts FG w3 account tx_fields tag max_wait
    max_retries bump_pct nm g (k : nat) h status :
  estimate_gas_safe w3 (set_nonce tx_fields (_nonce nm)) (Some FG) = Some g ->
  ((0 < k)%nat -> Z.of_nat k <= max_retries) ->
  (forall i, (i < k)%nat ->
      exists h', round_sends w3 account (Z.of_nat i)
                             (nth_attempt (draft tx_fields nm g) i) h' /\
                 round_poll w3 max_wait (Z.of_nat i) = None) ->
  round_sends w3 account (Z.of_nat k) (nth_attempt (draft tx_fields nm g) k) h ->
  round_poll w3 max_wait (Z.of_nat k) = Some status ->
  exists pre,
    send_with_rbf FG w3 account tx_fields tag max_wait max_retries bump_pct nm =
    (Returned h, backs k (next_state nm),
     pre ++ [EvBroadcast (nth_attempt (draft tx_fields nm g) k) h;
             EvReport (if status =? 1 then ConfirmedSuccess
                       else ConfirmedFailure)]) /\
    count is_broadcast pre = k /\ count is_bump pre = k /\
    count is_back pre = k.
Proof.
  intros Hg Hk Hrounds Hsend Hpoll.
  rewrite (send_with_rbf_unfold _ _ _ _ _ _ _ _ _ g Hg).
  replace (S (Z.to_nat max_retries))
    with (k + S (Z.to_nat max_retries - k))%nat by lia.
  destruct (rbf_loop_timeouts w3 account max_wait max_retries k
              (S (Z.to_nat max_retries - k)) 0 (draft tx_fields nm g)
              (next_state nm))
    as (pre & Heq & Hb & Hu & Hc); [exact Hrounds | exact Hk |].
  rewrite Heq. simpl (0 + Z.of_nat k).
  rewrite (rbf_loop_receipt _ _ _ _ _ _ _ _ _ h status Hsend Hpoll).
  exists ([EvNext (_nonce nm); EvEstimateGas (set_nonce tx_fields (_nonce nm))]
          ++ pre).
  rewrite !count_app, Hb, Hu, Hc, with_prefix_app.
  repeat split; reflexivity.
Qed.

(** A receipt with status 1 seen in round [k], after [k] rounds that timed
    out, ends the call with the success report and the hash of that
    round; [k = 0] is the plain case of one broadcast, no bump and no
    rollback. *)
Theorem success_receipt_ends_operation FG w3 account tx_fields tag max_wait
    max_retries bump_pct nm g (k : nat) h :
  estimate_gas_safe w3 (set_nonce tx_fields (_nonce nm)) (Some FG) = Some g ->
  ((0 < k)%nat -> Z.of_nat k <= max_retries) ->
  (forall i, (i < k)%nat ->
      exists h', round_sends w3 account (Z.of_nat i)
                             (nth_attempt (draft tx_fields nm g) i) h' /\
                 round_poll w3 max_wait (Z.of_nat i) = None) ->
  round_sends w3 account (Z.of_nat k) (nth_attempt (draft tx_fields nm g) k) h ->
  round_poll w3 max_wait (Z.of_nat k) = Some 1 ->
  exists pre,
    send_with_rbf FG w3 account tx_fields tag max_wait max_retries bump_pct nm =
    (Returned h, backs k (next_state nm),
     pre ++ [EvBroadcast (nth_attempt (draft tx_fields nm g) k) h;
             EvReport ConfirmedSuccess]) /\
    count is_broadcast pre = k /\ count is_bump pre = k /\
    count is_back pre = k.
Proof.
  intros Hg Hk Hrounds Hsend Hpoll.
  exact (receipt_after_timeouts FG w3 account tx_fields tag max_wait
           max_retries bump_pct nm g k h 1 Hg Hk Hrounds Hsend Hpoll).
Qed.

Lemma success_receipt_ends_operation_witness :
  exists pre,
    ff_deposit_send_with_rbf (quiet_node (timeout_then 0 [PollReceipt 1]))
      sample_account sample_tx_fields "deposit" MAX_WAIT MAX_RETRIES
      (Decimal_of_int BUMP_PCT) sample_manager =
    (Returned "0xh0"%string, backs 0 (next_state sample_manager),
     pre ++ [EvBroadcast
               (nth_attempt (draft sample_tx_fields sample_manager 120000) 0)
               "0xh0"%string;
             EvReport ConfirmedSuccess]) /\
    count is_broadcast pre = 0%nat /\ count is_bump pre = 0%nat /\
    count is_back pre = 0%nat.
Proof.
  apply (success_receipt_ends_operation 120000
           (quiet_node (timeout_then 0 [PollReceipt 1]))
           sample_account sample_tx_fields "deposit" MAX_WAIT MAX_RETRIES
           (Decimal_of_int BUMP_PCT) sample_manager 120000 0 "0xh0"%string).
  - reflexivity.
  - intros H; inversion H.
  - intros i Hi; inversion Hi.
  - exists "0xsigned"%string. split; reflexivity.
  - reflexivity.
Defined.

(** When every round up to the last allowed one is broadcast and times
    out, the call makes [max_retries + 1] broadcasts and [max_retries]
    bumps, reports the abandonment and returns the hash of the last
    replacement; the cursor has been moved back [max_retries] times. *)
Theorem abandoned_after_all_retries FG w3 account tx_fields tag max_wait
    max_retries bump_pct nm g h :
  estimate_gas_safe w3 (set_nonce tx_fields (_nonce nm)) (Some FG) = Some g ->
  0 <= max_retries ->
  (forall i, (i < Z.to_nat max_retries)%nat ->
      exists h', round_sends w3 account (Z.of_nat i)
                             (nth_attempt (draft tx_fields nm g) i) h' /\
                 round_poll w3 max_wait (Z.of_nat i) = None) ->
  round_sends w3 account max_retries
              (nth_attempt (draft tx_fields nm g) (Z.to_nat max_retries)) h ->
  round_poll w3 max_wait max_retries = None ->
  exists pre,
    send_with_rbf FG w3 account tx_fields tag max_wait max_retries bump_pct nm =
    (Returned h, backs (Z.to_nat max_retries) (next_state nm),
     pre ++ [EvBroadcast
               (nth_attempt (draft tx_fields nm g) (Z.to_nat max_retries)) h;
             EvReport Abandoned]) /\
    count is_broadcast pre = Z.to_nat max_retries /\
    count is_bump pre = Z.to_nat max_retries /\
    count is_back pre = Z.to_nat max_retries.
Proof.
  intros Hg Hmr Hrounds Hsend Hpoll.
  rewrite (send_with_rbf_unfold _ _ _ _ _ _ _ _ _ g Hg).
  replace (S (Z.to_nat max_retries))
    with (Z.to_nat max_retries + 1)%nat by lia.
  destruct (rbf_loop_timeouts w3 account max_wait max_retries
              (Z.to_nat max_retries) 1 0 (draft tx_fields nm g)
              (next_state nm))
    as (pre & Heq & Hb & Hu & Hc); [exact Hrounds | lia |].
  rewrite Heq.
  replace (0 + Z.of_nat (Z.to_nat max_retries)) with max_retries by lia.
  rewrite (rbf_loop_abandon _ _ _ _ _ _ _ _ _ h Hsend Hpoll) by lia.
  exists ([EvNext (_nonce nm); EvEstimateGas (set_nonce tx_fields (_nonce nm))]
          ++ pre).
  rewrite !count_app, Hb, Hu, Hc, with_prefix_app.
  repeat split; reflexivity.
Qed.

Lemma abandoned_after_all_retries_witness :
  exists pre,
    ff_cooldown_send_with_rbf (quiet_node (fun _ => [PollNone]))
      sample_account sample_tx_fields "cooldown" MAX_WAIT MAX_RETRIES
      (Decimal_of_int BUMP_PCT) sample_manager =
    (Returned "0xhN"%string, backs 3 (next_state sample_manager),
     pre ++ [EvBroadcast
               (nth_attempt (draft sample_tx_fields sample_manager 140000) 3)
               "0xhN"%string;
             EvReport Abandoned]) /\
    count is_broadcast pre = 3%nat /\ count is_bump pre = 3%nat /\
    count is_back pre = 3%nat.
Proof.
  apply (abandoned_after_all_retries 140000
           (quiet_node (fun _ => [PollNone]))
           sample_account sample_tx_fields "cooldown" MAX_WAIT MAX_RETRIES
           (Decimal_of_int BUMP_PCT) sample_manager 140000 "0xhN"%string).
  - reflexivity.
  - unfold MAX_RETRIES; lia.
  - intros i Hi. eexists. split; [| reflexivity].
    exists "0xsigned"%string. split; reflexivity.
  - exists "0xsigned"%string. split; reflexivity.
  - reflexivity.
Defined.

(* ------------------------------------------------------------------ *)
(** ** The fees of the replacements *)

Lemma nth_attempt_shift tx (m : nat) :
  map (nth_attempt (replacement tx)) (seq 0 m) =
  map (nth_attempt tx) (seq 1 m).
Proof.
  rewrite <- seq_shift, map_map. reflexivity.
Qed.

Lemma rbf_loop_broadcasts w3 account max_wait max_retries fuel :
  forall attempt tx nm,
    broadcasts (trace_of (rbf_loop fuel w3 account max_wait max_retries
                                   attempt tx (fees_of tx) nm)) =
    map (nth_attempt tx)
        (seq 0 (count is_broadcast
                  (trace_of (rbf_loop fuel w3 account max_wait max_retries
                                      attempt tx (fees_of tx) nm)))).
Proof.
  induction fuel as [| fuel IH]; intros attempt tx nm; [reflexivity |].
  destruct (rbf_loop_cases w3 account max_wait max_retries fuel
              attempt tx (fees_of tx) nm)
    as [-> | [(h & o & ->) | (h & Hle & ->)]]; try reflexivity.
  rewrite trace_of_with_prefix, broadcasts_app, count_app.
  fold (replacement tx). rewrite <- fees_of_replacement.
  rewrite IH, nth_attempt_shift. reflexivity.
Qed.

(** In every call the transactions go out in the order original, first
    replacement, second replacement, ...: the [i]-th broadcast is the
    draft whose two fee fields were bumped [i] times by [BUMP_PCT]. *)
Theorem broadcasts_are_successive_bumps FG w3 account tx_fields tag max_wait
    max_retries bump_pct nm g :
  estimate_gas_safe w3 (set_nonce tx_fields (_nonce nm)) (Some FG) = Some g ->
  broadcasts (trace_of (send_with_rbf FG w3 account tx_fields tag max_wait
                                      max_retries bump_pct nm)) =
  map (nth_attempt (draft tx_fields nm g))
      (seq 0 (count is_broadcast
                (trace_of (send_with_rbf FG w3 account tx_fields tag max_wait
                                         max_retries bump_pct nm)))).
Proof.
  intros Hg.
  rewrite (send_with_rbf_unfold _ _ _ _ _ _ _ _ _ g Hg), trace_of_with_prefix.
  rewrite broadcasts_app, count_app.
  apply rbf_loop_broadcasts.
Qed.

Lemma broadcasts_are_successive_bumps_witness :
  broadcasts (trace_of (ff_deposit_send_with_rbf
                          (quiet_node (timeout_then 2 [PollReceipt 1]))
                          sample_account sample_tx_fields "deposit" MAX_WAIT
                          MAX_RETRIES (Decimal_of_int 50) sample_manager)) =
  map (nth_attempt (draft sample_tx_fields sample_manager 120000))
      (seq 0 (count is_broadcast
                (trace_of (ff_deposit_send_with_rbf
                             (quiet_node (timeout_then 2 [PollReceipt 1]))
                             sample_account sample_tx_fields "deposit"
                             MAX_WAIT MAX_RETRIES (Decimal_of_int 50)
                             sample_manager)))).
Proof.
  apply (broadcasts_are_successive_bumps 120000
           (quiet_node (timeout_then 2 [PollReceipt 1]))
           sample_account sample_tx_fields "deposit" MAX_WAIT MAX_RETRIES
           (Decimal_of_int 50) sample_manager 120000).
  reflexivity.
Defined.

Lemma bump_mul_20 : bump_mul (Decimal_of_int BUMP_PCT) = mkDecimal 12 (-1).
Proof. vm_compute. reflexivity. Qed.

Lemma bump_20_field (f : Z) :
  0 <= f ->
  f <= int_of_Decimal
         (Decimal_mul (Decimal_of_int f) (bump_mul (Decimal_of_int BUMP_PCT))) /\
  (f < int_of_Decimal
         (Decimal_mul (Decimal_of_int f) (bump_mul (Decimal_of_int BUMP_PCT)))
   <-> 5 <= f).
Proof.
  intros Hf. rewrite bump_field_quantize, bump_mul_20.
  cbn [coefficient exponent].
  unfold int_of_Decimal; cbn [coefficient exponent Z.leb Z.compare Z.opp].
  change (10 ^ 1) with 10.
  destruct (quantize_nonneg (f * 12) ltac:(lia)) as [HQ0 HQ].
  rewrite Z.quot_div_nonneg by lia.
  pose proof (Z.div_mod (quantize (f * 12)) 10 ltac:(lia)) as Hdm.
  pose proof (Z.mod_pos_bound (quantize (f * 12)) 10 ltac:(lia)) as Hmb.
  destruct (Z_lt_le_dec (f * 12) (10 ^ PREC)) as [Hs | Hl].
  - rewrite quantize_exact in * by (rewrite Z.abs_eq; lia). lia.
  - change (10 ^ (PREC - 1)) with 1000000000000000000000000000 in HQ.
    change (10 ^ PREC) with 10000000000000000000000000000 in Hl.
    lia.
Qed.

(** A replacement never lowers a non-negative fee field and raises it
    exactly when the field is at least 5: with both fields below 5 the
    replacement is the very transaction it is meant to replace. *)
Theorem replacement_fee_growth (tx : Tx) :
  0 <= tx_maxPriorityFeePerGas tx -> 0 <= tx_maxFeePerGas tx ->
  tx_maxPriorityFeePerGas tx <= tx_maxPriorityFeePerGas (replacement tx) /\
  tx_maxFeePerGas tx <= tx_maxFeePerGas (replacement tx) /\
  (tx_maxPriorityFeePerGas tx < tx_maxPriorityFeePerGas (replacement tx)
   <-> 5 <= tx_maxPriorityFeePerGas tx) /\
  (tx_maxFeePerGas tx < tx_maxFeePerGas (replacement tx)
   <-> 5 <= tx_maxFeePerGas tx) /\
  (replacement tx = tx <->
   tx_maxPriorityFeePerGas tx < 5 /\ tx_maxFeePerGas tx < 5).
Proof.
  intros Hp Hm.
  destruct (bump_20_field _ Hp) as [Hle1 Hlt1].
  destruct (bump_20_field _ Hm) as [Hle2 Hlt2].
  destruct tx as [c f t v d mp mf n g].
  unfold replacement, set_fees, bump_fees, fees_of.
  cbv zeta.
  cbn [tx_maxPriorityFeePerGas tx_maxFeePerGas maxPriorityFeePerGas
       maxFeePerGas chainId from to value data nonce gas] in *.
  split; [exact Hle1 |]. split; [exact Hle2 |].
  split; [exact Hlt1 |]. split; [exact Hlt2 |].
  split.
  - intros Heq. inversion Heq as [[H1 H2]].
    rewrite H1 in Hlt1. rewrite H2 in Hlt2. rewrite !H1, !H2. lia.
  - intros [H1 H2]. f_equal; lia.
Qed.

Lemma replacement_fee_growth_witness :
  replacement (mkTx 1 "0xA" "0xB" 0 "0x" 4 3 (Some 5) (Some 120000)) =
  mkTx 1 "0xA" "0xB" 0 "0x" 4 3 (Some 5) (Some 120000).
Proof.
  apply (replacement_fee_growth
           (mkTx 1 "0xA" "0xB" 0 "0x" 4 3 (Some 5) (Some 120000)));
    simpl; lia.
Defined.

(* ------------------------------------------------------------------ *)
(** ** [suggest_fees]: when it raises *)

Lemma last_item_none (l : list Z) : last_item l = None <-> l = [].
Proof.
  split; [| now intros ->].
  induction l as [| x [| y l] IH]; intros H; try reflexivity; try discriminate.
  apply IH in H. discriminate.
Qed.

(** [suggest_fees] raises exactly when the unit conversion of the priority
    raises, or the gas-price query raises after the fee history raised or
    came back empty; a failing gas-price query does no harm while the fee
    history answers. *)
Theorem suggest_fees_raises (to_wei_gwei : Decimal -> option Z) (w3 : Web3)
    (hint : Decimal) :
  suggest_fees to_wei_gwei w3 hint = None <->
  to_wei_gwei hint = None \/
  (gas_price w3 = None /\
   (fee_history w3 = None \/ fee_history w3 = Some [])).
Proof.
  unfold suggest_fees, base_fee.
  destruct (fee_history w3) as [l |];
    [destruct (last_item l) as [b |] eqn:Hl;
     [| apply last_item_none in Hl; subst l] |];
    destruct (gas_price w3) as [g |];
    destruct (to_wei_gwei hint) as [p |];
    (split;
     [ intros H; try discriminate H; auto 6
     | intros [H | (H1 & [H2 | H2])];
       try discriminate; try reflexivity;
       inversion H2; subst; discriminate ]).
Qed.

(* ------------------------------------------------------------------ *)
(** ** [signed_raw_tx_bytes] *)

(** [signed_raw_tx_bytes] raises exactly when both attributes are missing
    (or hold [None]) and the dict route yields nothing: the object is no
    dict, or its ["rawTransaction"] key holds [None], or that key is absent
    and ["raw_transaction"] is absent or holds [None].  A ["rawTransaction"]
    key that holds [None] therefore hides a usable ["raw_transaction"]
    key. *)
Theorem signed_raw_tx_bytes_raises (signed : Signed) :
  signed_raw_tx_bytes signed = None <->
  attr_rawTransaction signed = None /\
  attr_raw_transaction signed = None /\
  (as_dict signed = None \/
   exists d, as_dict signed = Some d /\
     (d "rawTransaction"%string = Some None \/
      (d "rawTransaction"%string = None /\
       (d "raw_transaction"%string = None \/
        d "raw_transaction"%string = Some None)))).
Proof.
  unfold signed_raw_tx_bytes.
  destruct (attr_rawTransaction signed) as [a |];
    [split; [discriminate | intros (H & _); discriminate] |].
  destruct (attr_raw_transaction signed) as [b |];
    [split; [discriminate | intros (_ & H & _); discriminate] |].
  destruct (as_dict signed) as [d |]; [| split; auto].
  destruct (d "rawTransaction"%string) as [[v |] |] eqn:H1.
  - split; [discriminate |].
    intros (_ & _ & [H | (d' & Hd & H)]); [discriminate |].
    inversion Hd; subst d'. rewrite H1 in H.
    destruct H as [H | (H & _)]; discriminate.
  - split; [| reflexivity]. intros _. repeat split; auto.
    right. exists d. auto.
  - destruct (d "raw_transaction"%string) as [[v |] |] eqn:H2.
    + split; [discriminate |].
      intros (_ & _ & [H | (d' & Hd & H)]); [discriminate |].
      inversion Hd; subst d'. rewrite H1, H2 in H.
      destruct H as [H | (_ & [H | H])]; discriminate.
    + split; [| reflexivity]. intros _. repeat split; auto.
      right. exists d. auto.
    + split; [| reflexivity]. intros _. repeat split; auto.
      right. exists d. auto.
Qed.

(* ------------------------------------------------------------------ *)
(** ** [load_keys] *)

Lemma lstrip_fixed (s : ustr) :
  match s with [] => True | c :: _ => is_space c = false end ->
  lstrip s = s.
Proof. destruct s as [| c s]; simpl; [auto | now intros ->]. Qed.

Lemma lstrip_head (s : ustr) :
  match lstrip s with [] => True | c :: _ => is_space c = false end.
Proof.
  induction s as [| c s IH]; simpl; [exact I |].
  destruct (is_space c) eqn:Hc; [exact IH | exact Hc].
Qed.

Lemma lstrip_snoc (s : ustr) (c : N) :
  is_space c = false -> lstrip (s ++ [c]) = lstrip s ++ [c].
Proof.
  intros Hc. induction s as [| d s IH]; simpl; [now rewrite Hc |].
  destruct (is_space d); [exact IH | reflexivity].
Qed.

Lemma rstrip_cons (c : N) (s : ustr) :
  is_space c = false -> rstrip (c :: s) = c :: rstrip s.
Proof.
  intros Hc. unfold rstrip. simpl.
  rewrite lstrip_snoc by exact Hc. rewrite rev_app_distr. reflexivity.
Qed.

Lemma lstrip_idem (s : ustr) : lstrip (lstrip s) = lstrip s.
Proof. apply lstrip_fixed, lstrip_head. Qed.

Lemma rstrip_idem (s : ustr) : rstrip (rstrip s) = rstrip s.
Proof. unfold rstrip. now rewrite rev_involutive, lstrip_idem. Qed.

Lemma lstrip_strip (s : ustr) : lstrip (strip s) = strip s.
Proof.
  unfold strip. pose proof (lstrip_head s) as H.
  destruct (lstrip s) as [| c t]; [reflexivity |].
  rewrite rstrip_cons by exact H. simpl. now rewrite H.
Qed.

Lemma strip_idem (s : ustr) : strip (strip s) = strip s.
Proof.
  unfold strip at 1. rewrite lstrip_strip. unfold strip. apply rstrip_idem.
Qed.

Lemma rstrip_strip (s : ustr) : rstrip (strip s) = strip s.
Proof. unfold strip. apply rstrip_idem. Qed.

(** The loop in closed form: the first non-blank stripped line that fails
    the test decides; otherwise the non-blank stripped lines are added to
    the accumulator in order. *)
Lemma load_keys_loop_spec (lines acc : list ustr) :
  load_keys_loop lines acc =
  match find (fun s => nonblank s && negb (key_ok s)) (map strip lines) with
  | Some bad => ValueError (firstn 12 bad)
  | None =>
      match acc ++ filter nonblank (map strip lines) with
      | [] => RuntimeError
      | keys => Keys keys
      end
  end.
Proof.
  revert acc. induction lines as [| line rest IH]; intros acc.
  - simpl. rewrite app_nil_r. now destruct acc.
  - simpl. destruct (strip line) as [| c s] eqn:Hs.
    + simpl. apply IH.
    + cbn [nonblank andb filter].
      destruct (key_ok (c :: s)); simpl.
      * rewrite IH, <- app_assoc. reflexivity.
      * reflexivity.
Qed.

Lemma find_none_forallb {A} (p : A -> bool) (l : list A) :
  find p l = None <-> forallb (fun x => negb (p x)) l = true.
Proof.
  induction l as [| x l IH]; simpl; [tauto |].
  destruct (p x); simpl; [split; discriminate | exact IH].
Qed.

Lemma forallb_key_ok_filter (l : list ustr) :
  forallb (fun s => negb (nonblank s && negb (key_ok s))) l = true <->
  forallb key_ok (filter nonblank l) = true.
Proof.
  induction l as [| s l IH]; simpl; [tauto |].
  destruct (nonblank s); simpl; [| exact IH].
  destruct (key_ok s); simpl; [exact IH | split; discriminate].
Qed.

Lemma load_keys_keys (lines keys : list ustr) :
  load_keys lines = Keys keys <->
  keys = filter nonblank (map strip lines) /\
  keys <> [] /\
  forallb key_ok keys = true.
Proof.
  unfold load_keys. rewrite load_keys_loop_spec. simpl.
  destruct (find _ (map strip lines)) as [bad |] eqn:Hfind.
  - split; [discriminate |]. intros (-> & _ & Hok).
    apply forallb_key_ok_filter, find_none_forallb in Hok.
    rewrite Hok in Hfind. discriminate.
  - apply find_none_forallb, forallb_key_ok_filter in Hfind.
    destruct (filter nonblank (map strip lines)) as [| k ks] eqn:Hf.
    + split; [discriminate | intros (-> & H & _); now elim H].
    + split.
      * intros H; inversion H; subst. repeat split; [discriminate | exact Hfind].
      * intros (-> & _ & _). reflexivity.
Qed.

(** [load_keys] succeeds exactly when the file has at least one non-blank
    line and every non-blank line, once stripped, starts with "0x" and has
    at least 66 characters; it then returns those stripped lines in file
    order. *)
Theorem load_keys_success (lines keys : list ustr) :
  load_keys lines = Keys keys <->
  keys = filter nonblank (map strip lines) /\
  keys <> [] /\
  forallb key_ok keys = true.
Proof.
  unfold load_keys. rewrite load_keys_loop_spec. simpl.
  destruct (find _ (map strip lines)) as [bad |] eqn:Hfind.
  - split; [discriminate |]. intros (-> & _ & Hok).
    apply forallb_key_ok_filter, find_none_forallb in Hok.
    rewrite Hok in Hfind. discriminate.
  - apply find_none_forallb, forallb_key_ok_filter in Hfind.
    destruct (filter nonblank (map strip lines)) as [| k ks] eqn:Hf.
    + split; [discriminate | intros (-> & H & _); now elim H].
    + split.
      * intros H; inversion H; subst. repeat split; [discriminate | exact Hfind].
      * intros (-> & _ & _). reflexivity.
Qed.

(** Every key that [load_keys] returns starts with "0x", has at least 66
    characters and carries no white space at either end, and the list of
    keys is not empty. *)
Theorem load_keys_wellformed (lines keys : list ustr) :
  load_keys lines = Keys keys ->
  keys <> [] /\
  forall k, In k keys ->
    startswith_0x k = true /\ (66 <= List.length k)%nat /\ strip k = k.
Proof.
  intros H. apply load_keys_keys in H as (Hk & Hne & Hok).
  split; [exact Hne |]. intros k Hin.
  rewrite forallb_forall in Hok. specialize (Hok k Hin).
  unfold key_ok in Hok. apply andb_prop in Hok as [H0x Hlen].
  apply Nat.leb_le in Hlen. repeat split; try assumption.
  subst keys. apply filter_In in Hin as [Hin _].
  apply in_map_iff in Hin as (line & <- & _). apply strip_idem.
Qed.

Lemma load_keys_wellformed_witness :
  [sample_key; sample_key] <> [] /\
  forall k, In k [sample_key; sample_key] ->
    startswith_0x k = true /\ (66 <= List.length k)%nat /\ strip k = k.
Proof.
  apply (load_keys_wellformed sample_key_file [sample_key; sample_key]).
  vm_compute. reflexivity.
Defined.

Lemma forallb_map_strip (p : ustr -> bool) (l : list ustr) :
  forallb p (map strip l) = forallb (fun x => p (strip x)) l.
Proof.
  induction l as [| x l IH]; simpl; [reflexivity | now rewrite IH].
Qed.

Lemma forallb_pointwise {A} (p q : A -> bool) (l : list A) :
  (forall x, p x = q x) -> forallb p l = forallb q l.
Proof.
  intros H. induction l as [| x l IH]; simpl; [reflexivity |].
  now rewrite H, IH.
Qed.

Lemma find_some_split {A} (p : A -> bool) (l : list A) (x : A) :
  find p l = Some x <->
  exists before after,
    l = before ++ x :: after /\
    forallb (fun y => negb (p y)) before = true /\ p x = true.
Proof.
  induction l as [| y l IH]; simpl.
  - split; [discriminate |].
    intros (b & a & H & _). destruct b; discriminate.
  - destruct (p y) eqn:Hy.
    + split.
      * intros H; inversion H; subst. exists [], l. auto.
      * intros (b & a & H & Hb & Hx). destruct b as [| z b]; simpl in *.
        -- now inversion H.
        -- inversion H; subst. rewrite Hy in Hb. discriminate.
    + rewrite IH. split.
      * intros (b & a & -> & Hb & Hx). exists (y :: b), a.
        simpl. rewrite Hy. auto.
      * intros (b & a & H & Hb & Hx). destruct b as [| z b]; simpl in *.
        -- inversion H; subst. congruence.
        -- inversion H; subst. rewrite Hy in Hb. simpl in Hb. eauto.
Qed.

(** The two errors of [load_keys].  It raises the [RuntimeError] exactly
    when every line is blank (in particular on an empty file).  It raises
    the [ValueError] exactly when some non-blank line fails the test; the
    error then shows the first 12 characters of the first such line,
    stripped, and the valid keys before it are lost. *)
Theorem load_keys_errors (lines : list ustr) :
  (load_keys lines = RuntimeError <->
   forallb (fun l => negb (nonblank (strip l))) lines = true) /\
  (forall shown,
      load_keys lines = ValueError shown <->
      exists before bad after,
        lines = before ++ bad :: after /\
        forallb (fun l => negb (nonblank (strip l)) || key_ok (strip l))
                before = true /\
        nonblank (strip bad) = true /\ key_ok (strip bad) = false /\
        shown = firstn 12 (strip bad)).
Proof.
  unfold load_keys. rewrite load_keys_loop_spec. simpl. split.
  - destruct (find _ (map strip lines)) as [bad |] eqn:Hfind.
    + split; [discriminate |]. intros Hall.
      apply find_some_split in Hfind as (b & a & Heq & _ & Hbad).
      apply andb_prop in Hbad as [Hnb _].
      assert (Hin : In bad (map strip lines))
        by (rewrite Heq; apply in_or_app; right; left; reflexivity).
      apply in_map_iff in Hin as (l & <- & Hin).
      rewrite forallb_forall in Hall. specialize (Hall l Hin).
      rewrite Hnb in Hall. discriminate.
    + clear Hfind. induction lines as [| l rest IH]; simpl; [tauto |].
      destruct (strip l) as [| c s]; simpl; [exact IH |].
      split; discriminate.
  - intros shown. split.
    + destruct (find _ (map strip lines)) as [bad |] eqn:Hfind.
      * intros H; inversion H; subst shown.
        apply find_some_split in Hfind as (b & a & Heq & Hb & Hbad).
        apply map_eq_app in Heq as (lb & lrest & -> & <- & Hrest).
        destruct lrest as [| lbad la]; [discriminate |].
        inversion Hrest; subst. exists lb, lbad, la.
        apply andb_prop in Hbad as [Hnb Hko].
        apply negb_true_iff in Hko.
        repeat split; try assumption.
        rewrite forallb_map_strip in Hb.
        rewrite <- Hb. apply forallb_pointwise.
        intros l. now rewrite negb_andb, negb_involutive.
      * destruct (filter nonblank (map strip lines)); discriminate.
    + intros (lb & lbad & la & -> & Hb & Hnb & Hko & ->).
      assert (Hfind : find (fun s => nonblank s && negb (key_ok s))
                           (map strip (lb ++ lbad :: la)) =
                      Some (strip lbad)).
      { apply find_some_split. exists (map strip lb), (map strip la).
        rewrite map_app. simpl. repeat split.
        - rewrite forallb_map_strip.
          rewrite <- Hb. apply forallb_pointwise.
          intros l. now rewrite negb_andb, negb_involutive.
        - now rewrite Hnb, Hko. }
      rewrite Hfind. reflexivity.
Qed.

Lemma filter_nonblank_strip_fixed (lines : list ustr) :
  map strip (filter nonblank (map strip lines)) =
  filter nonblank (map strip lines).
Proof.
  induction lines as [| l rest IH]; simpl; [reflexivity |].
  destruct (nonblank (strip l)); simpl; [| exact IH].
  now rewrite strip_idem, IH.
Qed.

Lemma find_filter_nonblank (p : ustr -> bool) (l : list ustr) :
  find (fun s => nonblank s && p s) (filter nonblank l) =
  find (fun s => nonblank s && p s) l.
Proof.
  induction l as [| s l IH]; simpl; [reflexivity |].
  destruct (nonblank s) eqn:Hs; simpl; [rewrite Hs; simpl |]; now rewrite IH.
Qed.

Lemma filter_idem {A} (p : A -> bool) (l : list A) :
  filter p (filter p l) = filter p l.
Proof.
  induction l as [| x l IH]; simpl; [reflexivity |].
  destruct (p x) eqn:Hx; simpl; [rewrite Hx |]; now rewrite IH.
Qed.

(** Blank lines and white space around a key never matter: [load_keys]
    gives the same keys or the same error on the file and on its stripped
    non-blank lines. *)
Theorem load_keys_ignores_blanks (lines : list ustr) :
  load_keys (filter nonblank (map strip lines)) = load_keys lines.
Proof.
  unfold load_keys. rewrite !load_keys_loop_spec.
  rewrite filter_nonblank_strip_fixed, find_filter_nonblank, filter_idem.
  reflexivity.
Qed.

(* ------------------------------------------------------------------ *)
(** ** Business logic *)

(** The shape of the trace of any call (the content of C10 in the form the
    business logic needs). *)
Lemma send_with_rbf_shape FG w3 account tx_fields tag max_wait max_retries
    bump_pct nm :
  exists g rest,
    trace_of (send_with_rbf FG w3 account tx_fields tag max_wait max_retries
                            bump_pct nm) =
      EvNext (_nonce nm) :: EvEstimateGas (set_nonce tx_fields (_nonce nm))
      :: rest /\
    count is_estimate rest = 0%nat /\ count is_next rest = 0%nat /\
    Forall (same_but_fees (draft tx_fields nm g)) (broadcasts rest).
Proof.
  destruct (estimate_gas_safe_fallback w3 (set_nonce tx_fields (_nonce nm)) FG)
    as [g Hg].
  exists g. eexists.
  rewrite (send_with_rbf_unfold _ _ _ _ _ _ _ _ _ g Hg), trace_of_with_prefix.
  split; [reflexivity |].
  pose proof (rbf_loop_trace w3 account max_wait max_retries
                (S (Z.to_nat max_retries)) 0 (draft tx_fields nm g)
                (fees_of (draft tx_fields nm g)) (next_state nm)) as H.
  cbv zeta in H. tauto.
Qed.

Lemma count_cons p e (t : list Event) :
  count p (e :: t) = ((if p e then 1 else 0) + count p t)%nat.
Proof. unfold count; simpl. now destruct (p e). Qed.

Lemma nonces_taken_none t : count is_next t = 0%nat -> nonces_taken t = [].
Proof.
  induction t as [| e t IH]; [reflexivity |].
  rewrite count_cons. destruct e; simpl; try exact IH. discriminate.
Qed.

Lemma estimates_none t : count is_estimate t = 0%nat -> estimates t = [].
Proof.
  induction t as [| e t IH]; [reflexivity |].
  rewrite count_cons. destruct e; simpl; try exact IH. discriminate.
Qed.

Lemma nonces_taken_app a b :
  nonces_taken (a ++ b) = nonces_taken a ++ nonces_taken b.
Proof.
  induction a as [| e a IH]; [reflexivity |].
  destruct e; simpl; now rewrite IH.
Qed.

Lemma estimates_app a b : estimates (a ++ b) = estimates a ++ estimates b.
Proof.
  induction a as [| e a IH]; [reflexivity |].
  destruct e; simpl; now rewrite IH.
Qed.

(** One call of [send_with_rbf] on a transaction built by [call_tx]: one
    nonce, one gas estimate on the draft with the given fees, and only
    broadcasts of that call. *)
Lemma send_call_tx FG w3 account target payload fees tag max_wait max_retries
    bump_pct nm :
  let t := trace_of (send_with_rbf FG w3 account
                       (call_tx account target payload fees) tag max_wait
                       max_retries bump_pct nm) in
  nonces_taken t = [_nonce nm] /\
  Forall (fun tx => fees_of tx = fees) (estimates t) /\
  List.length (estimates t) = 1%nat /\
  Forall (calls account target payload) (broadcasts t).
Proof.
  intros t. subst t.
  destruct (send_with_rbf_shape FG w3 account
              (call_tx account target payload fees) tag max_wait max_retries
              bump_pct nm) as (g & rest & -> & He & Hn & Hall).
  simpl. rewrite (nonces_taken_none _ Hn), (estimates_none _ He).
  repeat split; try reflexivity.
  - constructor; [| constructor]. destruct fees; reflexivity.
  - eapply Forall_impl; [| exact Hall].
    intros tx (Hc & Hf & Ht & Hv & Hd & _). unfold calls.
    rewrite <- Hc, <- Hf, <- Ht, <- Hv, <- Hd. repeat split; reflexivity.
Qed.

(** [ensure_infinite_approve] branch by branch. *)
Lemma ensure_infinite_approve_cases lib w3 account token spender needed fees
    (nm : NonceManager) :
  ensure_infinite_approve lib w3 account token spender needed fees nm =
  match allowance_call w3 with
  | None => (Raised, nm, [])
  | Some current =>
      if current >=? needed then (Returned ""%string, nm, [])
      else if current >? 0 then
        match send_with_rbf 120000 (during_reset w3) account
                (call_tx account token (encode_approve lib spender 0) fees)
                ("approve(FF -> " ++ spender ++ ", 0)")
                MAX_WAIT MAX_RETRIES (Decimal_of_int BUMP_PCT) nm with
        | (Returned _, nm1, t1) =>
            with_prefix t1
              (send_with_rbf 120000 (during_approve w3) account
                 (call_tx account token
                    (encode_approve lib spender UINT256_MAX) fees)
                 ("approve(FF -> " ++ spender ++ ", UINT256_MAX)")
                 MAX_WAIT MAX_RETRIES (Decimal_of_int BUMP_PCT) nm1)
        | (Raised, nm1, t1) => (Raised, nm1, t1)
        | (OutOfFuel, nm1, t1) => (OutOfFuel, nm1, t1)
        end
      else
        send_with_rbf 120000 (during_approve w3) account
          (call_tx account token (encode_approve lib spender UINT256_MAX)
                   fees)
          ("approve(FF -> " ++ spender ++ ", UINT256_MAX)")
          MAX_WAIT MAX_RETRIES (Decimal_of_int BUMP_PCT) nm
  end.
Proof.
  unfold ensure_infinite_approve.
  unfold bind at 1. unfold call at 1.
  destruct (allowance_call w3) as [current |]; [| reflexivity].
  destruct (current >=? needed); [reflexivity |].
  destruct (current >? 0).
  - unfold bind at 1. unfold bind at 1.
    destruct (send_with_rbf 120000 (during_reset w3) _ _ _ _ _ _ nm)
      as [[[h | |] nm1] t1]; try reflexivity.
    unfold ret at 1. unfold with_prefix.
    destruct (send_with_rbf 120000 (during_approve w3) _ _ _ _ _ _ nm1)
      as [[r nm2] t2].
    rewrite app_nil_r. reflexivity.
  - unfold bind, ret.
    destruct (send_with_rbf 120000 (during_approve w3) _ _ _ _ _ _ nm)
      as [[r nm2] t2].
    reflexivity.
Qed.

(** [ensure_infinite_approve] sends nothing but approvals of [spender] on
    [token]: first the broadcasts of the reset to zero, then those of the
    unlimited approval, all from [account], on chain 1 and without value.
    It broadcasts only when the allowance is below [needed], and a reset
    only when the allowance is positive. *)
Theorem ensure_infinite_approve_broadcasts lib w3 account token spender
    needed fees nm :
  exists resets approvals,
    broadcasts (trace_of (ensure_infinite_approve lib w3 account token spender
                            needed fees nm)) = resets ++ approvals /\
    Forall (calls account token (encode_approve lib spender 0)) resets /\
    Forall (calls account token (encode_approve lib spender UINT256_MAX))
           approvals /\
    (resets ++ approvals <> [] ->
     exists current, allowance_call w3 = Some current /\ current < needed) /\
    (resets <> [] ->
     exists current, allowance_call w3 = Some current /\ 0 < current).
Proof.
  rewrite ensure_infinite_approve_cases.
  destruct (allowance_call w3) as [current |];
    [| exists [], []; repeat split; try constructor; intros H; now elim H].
  destruct (Z.geb_spec current needed) as [Hge | Hlt];
    [exists [], []; repeat split; try constructor; intros H; now elim H |].
  destruct (Z.gtb_spec current 0) as [Hpos | Hnpos].
  - pose proof (send_call_tx 120000 (during_reset w3) account token
                  (encode_approve lib spender 0) fees
                  ("approve(FF -> " ++ spender ++ ", 0)")
                  MAX_WAIT MAX_RETRIES (Decimal_of_int BUMP_PCT) nm) as Hr.
    cbv zeta in Hr. destruct Hr as (_ & _ & _ & Hr).
    destruct (send_with_rbf 120000 (during_reset w3) _ _ _ _ _ _ nm)
      as [[[h | |] nm1] t1]; simpl in Hr.
    + pose proof (send_call_tx 120000 (during_approve w3) account token
                    (encode_approve lib spender UINT256_MAX) fees
                    ("approve(FF -> " ++ spender ++ ", UINT256_MAX)")
                    MAX_WAIT MAX_RETRIES (Decimal_of_int BUMP_PCT) nm1) as Ha.
      cbv zeta in Ha. destruct Ha as (_ & _ & _ & Ha).
      rewrite trace_of_with_prefix, broadcasts_app.
      eexists _, _. split; [reflexivity |]. repeat split; eauto.
    + exists (broadcasts t1), []. rewrite app_nil_r.
      repeat split; eauto; constructor.
    + exists (broadcasts t1), []. rewrite app_nil_r.
      repeat split; eauto; constructor.
  - pose proof (send_call_tx 120000 (during_approve w3) account token
                  (encode_approve lib spender UINT256_MAX) fees
                  ("approve(FF -> " ++ spender ++ ", UINT256_MAX)")
                  MAX_WAIT MAX_RETRIES (Decimal_of_int BUMP_PCT) nm) as Ha.
    cbv zeta in Ha. destruct Ha as (_ & _ & _ & Ha).
    exists []. eexists. split; [reflexivity |].
    repeat split; eauto. intros H; now elim H.
Qed.

(** How many Operations [ensure_infinite_approve] runs, counted by the
    nonces it takes: none when the allowance suffices; one when the
    allowance is zero; with a positive, insufficient allowance the reset
    and then, whatever outcome the reset reported, the unlimited approval,
    unless the reset raised. *)
Theorem ensure_infinite_approve_operations lib w3 account token spender
    needed fees nm current :
  allowance_call w3 = Some current ->
  List.length
    (nonces_taken
       (trace_of (ensure_infinite_approve lib w3 account token spender needed
                                          fees nm))) =
  if current >=? needed then 0%nat
  else if current >? 0 then
    match result_of
            (send_with_rbf 120000 (during_reset w3) account
               (call_tx account token (encode_approve lib spender 0) fees)
               ("approve(FF -> " ++ spender ++ ", 0)")
               MAX_WAIT MAX_RETRIES (Decimal_of_int BUMP_PCT) nm) with
    | Returned _ => 2%nat
    | _ => 1%nat
    end
  else 1%nat.
Proof.
  intros Hallow. rewrite ensure_infinite_approve_cases, Hallow.
  destruct (current >=? needed); [reflexivity |].
  destruct (current >? 0).
  - pose proof (send_call_tx 120000 (during_reset w3) account token
                  (encode_approve lib spender 0) fees
                  ("approve(FF -> " ++ spender ++ ", 0)")
                  MAX_WAIT MAX_RETRIES (Decimal_of_int BUMP_PCT) nm) as Hr.
    cbv zeta in Hr. destruct Hr as (Hr & _).
    destruct (send_with_rbf 120000 (during_reset w3) _ _ _ _ _ _ nm)
      as [[[h | |] nm1] t1]; cbn [trace_of snd] in Hr;
      unfold result_of; cbn [fst].
    + pose proof (send_call_tx 120000 (during_approve w3) account token
                    (encode_approve lib spender UINT256_MAX) fees
                    ("approve(FF -> " ++ spender ++ ", UINT256_MAX)")
                    MAX_WAIT MAX_RETRIES (Decimal_of_int BUMP_PCT) nm1) as Ha.
      cbv zeta in Ha. destruct Ha as (Ha & _).
      unfold TxHash in Ha.
      rewrite trace_of_with_prefix, nonces_taken_app, Hr, Ha. reflexivity.
    + cbn [trace_of snd]. rewrite Hr. reflexivity.
    + cbn [trace_of snd]. rewrite Hr. reflexivity.
  - pose proof (send_call_tx 120000 (during_approve w3) account token
                  (encode_approve lib spender UINT256_MAX) fees
                  ("approve(FF -> " ++ spender ++ ", UINT256_MAX)")
                  MAX_WAIT MAX_RETRIES (Decimal_of_int BUMP_PCT) nm) as Ha.
    cbv zeta in Ha. destruct Ha as (Ha & _). unfold TxHash in Ha.
    rewrite Ha. reflexivity.
Qed.

Lemma ensure_infinite_approve_operations_witness :
  List.length
    (nonces_taken
       (trace_of (ensure_infinite_approve sample_library (sample_wallet (Some 7))
                    sample_account "0xTOKEN" "0xVAULT" 1000 (mkFees 100 200)
                    sample_manager))) = 2%nat.
Proof.
  apply (ensure_infinite_approve_operations sample_library
           (sample_wallet (Some 7)) sample_account "0xTOKEN" "0xVAULT" 1000
           (mkFees 100 200) sample_manager 7).
  reflexivity.
Defined.

(* ------------------------------------------------------------------ *)
(** ** The loop over the wallets *)

Lemma wallet_turn_none lib body w3 pk :
  wallet_turn lib body w3 pk = None <-> turn_starts lib w3 pk = false.
Proof.
  unfold wallet_turn, turn_starts.
  destruct (from_key lib pk); [| tauto].
  destruct (pending_count w3); [| tauto].
  destruct (eth_balance w3) as [wei |]; [| tauto].
  destruct (Decimal_ltb _ _); split; discriminate.
Qed.

Lemma for_each_wallet_all_start lib body node (keys : list ustr) :
  forall idx,
    (forall i, (i < List.length keys)%nat ->
        turn_starts lib (node (idx + i)%nat) (nth i keys []) = true) ->
    snd (for_each_wallet lib body node idx keys) = Done /\
    List.length (fst (for_each_wallet lib body node idx keys)) =
    List.length keys.
Proof.
  induction keys as [| pk rest IH]; intros idx Hall; [split; reflexivity |].
  simpl.
  destruct (wallet_turn lib body (node idx) pk) as [events |] eqn:Hturn.
  - destruct (IH (S idx)) as [He Hl].
    + intros i Hi. specialize (Hall (S i) ltac:(simpl; lia)).
      now rewrite Nat.add_succ_r in Hall.
    + destruct (for_each_wallet lib body node (S idx) rest) as [logs exit].
      simpl in *. split; [exact He | now rewrite Hl].
  - apply wallet_turn_none in Hturn.
    specialize (Hall 0%nat ltac:(simpl; lia)).
    rewrite Nat.add_0_r in Hall. simpl in Hall. congruence.
Qed.

Lemma for_each_wallet_first_failure lib body node (keys : list ustr) :
  forall idx j,
    (j < List.length keys)%nat ->
    turn_starts lib (node (idx + j)%nat) (nth j keys []) = false ->
    (forall i, (i < j)%nat ->
        turn_starts lib (node (idx + i)%nat) (nth i keys []) = true) ->
    snd (for_each_wallet lib body node idx keys) = Uncaught /\
    List.length (fst (for_each_wallet lib body node idx keys)) = j.
Proof.
  induction keys as [| pk rest IH]; intros idx j Hj Hfail Hbefore;
    [simpl in Hj; lia |].
  simpl. destruct j as [| j].
  - rewrite Nat.add_0_r in Hfail. simpl in Hfail.
    apply (wallet_turn_none lib body) in Hfail. rewrite Hfail.
    split; reflexivity.
  - destruct (wallet_turn lib body (node idx) pk) as [events |] eqn:Hturn.
    + destruct (IH (S idx) j) as [He Hl].
      * simpl in Hj. lia.
      * now rewrite Nat.add_succ_r in Hfail.
      * intros i Hi. specialize (Hbefore (S i) ltac:(lia)).
        now rewrite Nat.add_succ_r in Hbefore.
      * destruct (for_each_wallet lib body node (S idx) rest) as [logs exit].
        simpl in *. split; [exact He | now rewrite Hl].
    + apply wallet_turn_none in Hturn.
      specialize (Hbefore 0%nat ltac:(lia)).
      rewrite Nat.add_0_r in Hbefore. simpl in Hbefore. congruence.
Qed.

(** Which exceptions end a run.  Whatever the body of the [try] does, the
    loop reaches its end when key derivation, the pending-count query and
    the ETH-balance query answer for every wallet; and the first wallet for
    which one of the three raises ends the run, so that the wallets after
    it are never processed. *)
Theorem main_loop_contains_exceptions lib body node idx (keys : list ustr) :
  ((forall i, (i < List.length keys)%nat ->
       turn_starts lib (node (idx + i)%nat) (nth i keys []) = true) ->
   snd (for_each_wallet lib body node idx keys) = Done /\
   List.length (fst (for_each_wallet lib body node idx keys)) =
   List.length keys) /\
  (forall j,
      (j < List.length keys)%nat ->
      turn_starts lib (node (idx + j)%nat) (nth j keys []) = false ->
      (forall i, (i < j)%nat ->
          turn_starts lib (node (idx + i)%nat) (nth i keys []) = true) ->
      snd (for_each_wallet lib body node idx keys) = Uncaught /\
      List.length (fst (for_each_wallet lib body node idx keys)) = j).
Proof.
  split.
  - apply for_each_wallet_all_start.
  - apply for_each_wallet_first_failure.
Qed.

Lemma main_loop_contains_exceptions_witness :
  snd (for_each_wallet sample_library
         (deposit_body sample_library (mkFees 100 200)) sample_wallets 1
         [sample_key; sample_key; sample_key]) = Uncaught /\
  List.length
    (fst (for_each_wallet sample_library
            (deposit_body sample_library (mkFees 100 200)) sample_wallets 1
            [sample_key; sample_key; sample_key])) = 1%nat.
Proof.
  apply (main_loop_contains_exceptions sample_library
           (deposit_body sample_library (mkFees 100 200)) sample_wallets 1
           [sample_key; sample_key; sample_key]).
  - simpl; lia.
  - reflexivity.
  - intros i Hi. assert (i = 0%nat) as -> by lia. reflexivity.
Defined.

(* ------------------------------------------------------------------ *)
(** ** What a wallet's turn may send *)

Lemma starts_at_nil n : starts_at n [].
Proof. exact I. Qed.

Lemma starts_at_app n t1 t2 :
  starts_at n t1 -> (nonces_taken t1 = [] -> starts_at n t2) ->
  starts_at n (t1 ++ t2).
Proof.
  unfold starts_at. rewrite nonces_taken_app.
  destruct (nonces_taken t1); simpl; intros H1 H2;
    [exact (H2 eq_refl) | exact H1].
Qed.

Lemma send_call_tx_starts FG w3 account target payload fees tag max_wait
    max_retries bump_pct nm :
  starts_at (_nonce nm)
    (trace_of (send_with_rbf FG w3 account
                 (call_tx account target payload fees) tag max_wait
                 max_retries bump_pct nm)).
Proof.
  pose proof (send_call_tx FG w3 account target payload fees tag max_wait
                max_retries bump_pct nm) as H.
  cbv zeta in H. destruct H as (H & _). unfold starts_at. now rewrite H.
Qed.

Lemma send_call_tx_nonempty FG w3 account target payload fees tag max_wait
    max_retries bump_pct nm :
  nonces_taken
    (trace_of (send_with_rbf FG w3 account
                 (call_tx account target payload fees) tag max_wait
                 max_retries bump_pct nm)) <> [].
Proof.
  pose proof (send_call_tx FG w3 account target payload fees tag max_wait
                max_retries bump_pct nm) as H.
  cbv zeta in H. destruct H as (H & _). rewrite H. discriminate.
Qed.

(** What [ensure_infinite_approve] leaves in the trace. *)
Lemma ensure_infinite_approve_frame lib w3 account token spender needed fees
    nm :
  let out := ensure_infinite_approve lib w3 account token spender needed
                                     fees nm in
  Forall (fun tx => calls account token (encode_approve lib spender 0) tx \/
                    calls account token
                          (encode_approve lib spender UINT256_MAX) tx)
         (broadcasts (trace_of out)) /\
  Forall (fun tx => fees_of tx = fees) (estimates (trace_of out)) /\
  (List.length (estimates (trace_of out)) <= 2)%nat /\
  starts_at (_nonce nm) (trace_of out) /\
  (nonces_taken (trace_of out) = [] -> manager_of out = nm).
Proof.
  intros out. subst out. rewrite ensure_infinite_approve_cases.
  pose proof (send_call_tx 120000 (during_reset w3) account token
                (encode_approve lib spender 0) fees
                ("approve(FF -> " ++ spender ++ ", 0)")
                MAX_WAIT MAX_RETRIES (Decimal_of_int BUMP_PCT) nm) as Hr.
  pose proof (fun nm1 =>
                send_call_tx 120000 (during_approve w3) account token
                  (encode_approve lib spender UINT256_MAX) fees
                  ("approve(FF -> " ++ spender ++ ", UINT256_MAX)")
                  MAX_WAIT MAX_RETRIES (Decimal_of_int BUMP_PCT) nm1) as Ha.
  cbv zeta in Hr, Ha. unfold TxHash in *.
  destruct (allowance_call w3) as [current |];
    [| repeat split; auto; constructor].
  destruct (current >=? needed); [repeat split; auto; constructor |].
  destruct (current >? 0).
  - destruct Hr as (Hn & Hf & Hl & Hb).
    destruct (send_with_rbf 120000 (during_reset w3) _ _ _ _ _ _ nm)
      as [[[h | |] nm1] t1]; cbn [trace_of snd] in *;
      assert (Hs : starts_at (_nonce nm) t1)
        by (unfold starts_at; now rewrite Hn).
    + destruct (Ha nm1) as (Hn2 & Hf2 & Hl2 & Hb2).
      rewrite trace_of_with_prefix, broadcasts_app, estimates_app,
        nonces_taken_app, length_app, Hl, Hl2.
      repeat split.
      * apply Forall_app. split; (eapply Forall_impl; [| eassumption]); auto.
      * apply Forall_app. split; assumption.
      * lia.
      * apply starts_at_app; [exact Hs |]. rewrite Hn. discriminate.
      * rewrite Hn. discriminate.
    + repeat split; try assumption; try lia.
      * eapply Forall_impl; [| eassumption]; auto.
      * rewrite Hn. discriminate.
    + repeat split; try assumption; try lia.
      * eapply Forall_impl; [| eassumption]; auto.
      * rewrite Hn. discriminate.
  - destruct (Ha nm) as (Hn2 & Hf2 & Hl2 & Hb2).
    repeat split; try assumption; try lia.
    + eapply Forall_impl; [| eassumption]; auto.
    + unfold starts_at. now rewrite Hn2.
    + rewrite Hn2. discriminate.
Qed.

Lemma deposit_body_trace lib fees w3 acct nm :
  trace_of (deposit_body lib fees w3 acct nm) =
  match token_balance w3 with
  | None => []
  | Some balance =>
      if balance =? 0 then []
      else
        match result_of (ensure_infinite_approve lib w3 acct
                           (ADDR_FF_TOKEN lib) (ADDR_VAULT lib) balance fees
                           nm) with
        | Returned _ =>
            trace_of (ensure_infinite_approve lib w3 acct (ADDR_FF_TOKEN lib)
                        (ADDR_VAULT lib) balance fees nm) ++
            trace_of (step_deposit lib w3 acct (ADDR_VAULT lib) balance
                        (address acct) fees
                        (manager_of
                           (ensure_infinite_approve lib w3 acct
                              (ADDR_FF_TOKEN lib) (ADDR_VAULT lib) balance
                              fees nm)))
        | _ =>
            trace_of (ensure_infinite_approve lib w3 acct (ADDR_FF_TOKEN lib)
                        (ADDR_VAULT lib) balance fees nm)
        end
  end.
Proof.
  unfold deposit_body. unfold bind at 1. unfold call at 1.
  destruct (token_balance w3) as [balance |]; [| reflexivity].
  destruct (balance =? 0); [reflexivity |].
  unfold bind at 1.
  destruct (ensure_infinite_approve lib w3 acct _ _ balance fees nm)
    as [[[s | |] nm1] t1]; try reflexivity.
  unfold bind, ret. cbn [result_of manager_of trace_of fst snd].
  destruct (step_deposit lib w3 acct _ balance _ fees nm1)
    as [[[s2 | |] nm2] t2]; cbn [trace_of snd]; try reflexivity.
  now rewrite app_nil_r.
Qed.

(** What the body of the deposit script's [try] leaves in the trace. *)
Lemma deposit_body_frame lib fees w3 acct nm :
  Forall (fun tx => deposit_script_tx lib tx /\ from tx = address acct)
         (broadcasts (trace_of (deposit_body lib fees w3 acct nm))) /\
  Forall (fun tx => fees_of tx = fees)
         (estimates (trace_of (deposit_body lib fees w3 acct nm))) /\
  (List.length (estimates (trace_of (deposit_body lib fees w3 acct nm)))
   <= 3)%nat /\
  starts_at (_nonce nm) (trace_of (deposit_body lib fees w3 acct nm)).
Proof.
  rewrite deposit_body_trace.
  destruct (token_balance w3) as [balance |];
    [| repeat split; auto; constructor].
  destruct (Z.eqb_spec balance 0) as [| Hbal];
    [repeat split; auto; constructor |].
  pose proof (ensure_infinite_approve_frame lib w3 acct (ADDR_FF_TOKEN lib)
                (ADDR_VAULT lib) balance fees nm) as He.
  cbv zeta in He. destruct He as (Hb & Hf & Hl & Hs & Hm).
  assert (Hb' : Forall (fun tx => deposit_script_tx lib tx /\
                                  from tx = address acct)
                  (broadcasts
                     (trace_of (ensure_infinite_approve lib w3 acct
                                  (ADDR_FF_TOKEN lib) (ADDR_VAULT lib)
                                  balance fees nm)))).
  { eapply Forall_impl; [| exact Hb].
    intros tx [(Hc & Hfr & Ht & Hv & Hd) | (Hc & Hfr & Ht & Hv & Hd)];
      (split; [| exact Hfr]); unfold deposit_script_tx; auto 8. }
  destruct (result_of _); [| repeat split; assumption || lia ..].
  pose proof (send_call_tx 120000 (during_final w3) acct (ADDR_VAULT lib)
                (encode_deposit lib balance (address acct)) fees
                ("vault.deposit(" ++ str_of_int lib balance ++ ", "
                 ++ address acct ++ ")")
                MAX_WAIT MAX_RETRIES (Decimal_of_int BUMP_PCT)
                (manager_of
                   (ensure_infinite_approve lib w3 acct (ADDR_FF_TOKEN lib)
                      (ADDR_VAULT lib) balance fees nm))) as Hd.
  cbv zeta in Hd. destruct Hd as (Hn3 & Hf3 & Hl3 & Hb3).
  fold (step_deposit lib w3 acct (ADDR_VAULT lib) balance (address acct) fees)
    in Hn3, Hf3, Hl3, Hb3.
  rewrite broadcasts_app, estimates_app, length_app.
  repeat split.
  - apply Forall_app. split; [exact Hb' |].
    eapply Forall_impl; [| exact Hb3].
    intros tx (Hc & Hfr & Ht & Hv & Hdata). split; [| exact Hfr].
    unfold deposit_script_tx. repeat split; auto.
    right. split; [exact Ht |]. exists balance. rewrite Hfr. auto.
  - apply Forall_app. split; assumption.
  - unfold TxHash in *. lia.
  - apply starts_at_app; [exact Hs |].
    intros Hnone. rewrite (Hm Hnone). unfold starts_at.
    rewrite (Hm Hnone) in Hn3. unfold TxHash in *. now rewrite Hn3.
Qed.

Lemma cooldown_body_trace lib fees w3 acct nm :
  trace_of (cooldown_body lib fees w3 acct nm) =
  match token_balance w3 with
  | None => []
  | Some bal =>
      if bal =? 0 then []
      else
        trace_of (send_with_rbf 140000 (during_final w3) acct
                    (call_tx acct (ADDR_VAULT lib)
                       (encode_cooldownShares lib bal (address acct)) fees)
                    ("vault.cooldownShares(" ++ str_of_int lib bal
                     ++ ", owner=" ++ address acct ++ ")")
                    MAX_WAIT MAX_RETRIES (Decimal_of_int BUMP_PCT) nm)
  end.
Proof.
  unfold cooldown_body, step_cooldown_all_shares.
  unfold bind at 1. unfold bind at 1. unfold call at 1.
  destruct (token_balance w3) as [bal |]; [| reflexivity].
  destruct (bal =? 0); [reflexivity |].
  unfold bind, ret.
  destruct (send_with_rbf 140000 (during_final w3) _ _ _ _ _ _ nm)
    as [[[h | |] nm1] t1]; cbn [trace_of snd]; try reflexivity.
  now rewrite !app_nil_r.
Qed.

(** What the body of the cooldown script's [try] leaves in the trace. *)
Lemma cooldown_body_frame lib fees w3 acct nm :
  Forall (fun tx => cooldown_script_tx lib tx /\ from tx = address acct)
         (broadcasts (trace_of (cooldown_body lib fees w3 acct nm))) /\
  Forall (fun tx => fees_of tx = fees)
         (estimates (trace_of (cooldown_body lib fees w3 acct nm))) /\
  (List.length (estimates (trace_of (cooldown_body lib fees w3 acct nm)))
   <= 1)%nat /\
  starts_at (_nonce nm) (trace_of (cooldown_body lib fees w3 acct nm)).
Proof.
  rewrite cooldown_body_trace.
  destruct (token_balance w3) as [bal |];
    [| repeat split; auto; constructor].
  destruct (Z.eqb_spec bal 0) as [| Hbal];
    [repeat split; auto; constructor |].
  pose proof (send_call_tx 140000 (during_final w3) acct (ADDR_VAULT lib)
                (encode_cooldownShares lib bal (address acct)) fees
                ("vault.cooldownShares(" ++ str_of_int lib bal
                 ++ ", owner=" ++ address acct ++ ")")
                MAX_WAIT MAX_RETRIES (Decimal_of_int BUMP_PCT) nm) as Hd.
  cbv zeta in Hd. destruct Hd as (Hn & Hf & Hl & Hb).
  repeat split.
  - eapply Forall_impl; [| exact Hb].
    intros tx (Hc & Hfr & Ht & Hv & Hdata). split; [| exact Hfr].
    unfold cooldown_script_tx. repeat split; auto.
    exists bal. rewrite Hfr. auto.
  - exact Hf.
  - rewrite Hl. lia.
  - unfold starts_at. now rewrite Hn.
Qed.

Lemma wallet_turn_some lib body w3 pk events :
  wallet_turn lib body w3 pk = Some events ->
  events = [] \/
  exists acct pending,
    from_key lib pk = Some acct /\ pending_count w3 = Some pending /\
    events = trace_of (body w3 acct (NonceManager_init (address acct) pending)).
Proof.
  unfold wallet_turn.
  destruct (from_key lib pk) as [acct |]; [| discriminate].
  destruct (pending_count w3) as [pending |]; [| discriminate].
  destruct (eth_balance w3) as [wei |]; [| discriminate].
  destruct (Decimal_ltb _ _); intros H; inversion H; subst; [now left |].
  right. exists acct, pending. auto.
Qed.

Lemma in_for_each_wallet lib body node (keys : list ustr) events :
  forall idx,
    In events (fst (for_each_wallet lib body node idx keys)) ->
    exists i pk, In pk keys /\ wallet_turn lib body (node i) pk = Some events.
Proof.
  induction keys as [| pk rest IH]; intros idx Hin; [now simpl in Hin |].
  simpl in Hin.
  destruct (wallet_turn lib body (node idx) pk) as [ev |] eqn:Hturn;
    [| now simpl in Hin].
  destruct (for_each_wallet lib body node (S idx) rest) as [logs exit] eqn:Hr.
  simpl in Hin. destruct Hin as [<- | Hin].
  - exists idx, pk. split; [now left | exact Hturn].
  - destruct (IH (S idx)) as (i & pk' & Hk & Ht).
    + now rewrite Hr.
    + exists i, pk'. split; [now right | exact Ht].
Qed.

Lemma in_main_with lib body p events :
  In events (fst (main_with lib body p)) ->
  exists base_fees i pk,
    suggest_fees (to_wei_gwei lib) (fee_node p) PRIORITY_GWEI = Some base_fees /\
    wallet_turn lib (body base_fees) (wallet_node p i) pk = Some events.
Proof.
  unfold main_with.
  destruct (build_w3 _ _); [| now simpl].
  destruct (keys_file p) as [lines |]; [| now simpl].
  destruct (load_keys lines) as [keys | |]; try (now simpl).
  destruct (suggest_fees _ _ _) as [base_fees |]; [| now simpl].
  intros Hin. apply in_for_each_wallet in Hin as (i & pk & _ & Ht).
  exists base_fees, i, pk. auto.
Qed.

(** Whatever the node answers, every transaction that a run of the deposit
    script broadcasts is on chain 1, carries no ETH, and is either an
    approval of the vault on the FF token (for zero or for the maximum) or
    a deposit into the vault whose receiver is the sender.  A wallet runs at
    most three Operations, and each of them starts from the one fee bid
    suggested at the start of the run. *)
Theorem ff_deposit_main_sends lib p events :
  In events (fst (ff_deposit_main lib p)) ->
  Forall (deposit_script_tx lib) (broadcasts events) /\
  (List.length (estimates events) <= 3)%nat /\
  Forall (fun tx => suggest_fees (to_wei_gwei lib) (fee_node p) PRIORITY_GWEI
                    = Some (fees_of tx))
         (estimates events).
Proof.
  intros Hin. apply in_main_with in Hin as (base & i & pk & Hfees & Hturn).
  apply wallet_turn_some in Hturn
    as [-> | (acct & pending & _ & _ & ->)].
  - repeat split; simpl; auto.
  - destruct (deposit_body_frame lib base (wallet_node p i) acct
                (NonceManager_init (address acct) pending))
      as (Hb & Hf & Hl & _).
    repeat split.
    + eapply Forall_impl; [| exact Hb]. now intros tx [H _].
    + exact Hl.
    + eapply Forall_impl; [| exact Hf]. intros tx ->. exact Hfees.
Qed.

Lemma ff_deposit_main_sends_witness :
  Forall (deposit_script_tx sample_library)
    (broadcasts (hd [] (fst (ff_deposit_main sample_library sample_process))))
  /\
  (List.length
     (estimates (hd [] (fst (ff_deposit_main sample_library sample_process))))
   <= 3)%nat /\
  Forall (fun tx =>
            suggest_fees (to_wei_gwei sample_library) (fee_node sample_process)
                         PRIORITY_GWEI = Some (fees_of tx))
    (estimates (hd [] (fst (ff_deposit_main sample_library sample_process)))).
Proof.
  apply (ff_deposit_main_sends sample_library sample_process).
  vm_compute. left. reflexivity.
Defined.

(** Whatever the node answers, every transaction that a run of the
    cooldown script broadcasts is a [cooldownShares] call on the vault for
    a non-zero amount with the sender as owner, on chain 1 and without ETH;
    a wallet runs at most one Operation, which starts from the fee bid
    suggested at the start of the run. *)
Theorem ff_cooldown_main_sends lib p events :
  In events (fst (ff_cooldown_main lib p)) ->
  Forall (cooldown_script_tx lib) (broadcasts events) /\
  (List.length (estimates events) <= 1)%nat /\
  Forall (fun tx => suggest_fees (to_wei_gwei lib) (fee_node p) PRIORITY_GWEI
                    = Some (fees_of tx))
         (estimates events).
Proof.
  intros Hin. apply in_main_with in Hin as (base & i & pk & Hfees & Hturn).
  apply wallet_turn_some in Hturn
    as [-> | (acct & pending & _ & _ & ->)].
  - repeat split; simpl; auto.
  - destruct (cooldown_body_frame lib base (wallet_node p i) acct
                (NonceManager_init (address acct) pending))
      as (Hb & Hf & Hl & _).
    repeat split.
    + eapply Forall_impl; [| exact Hb]. now intros tx [H _].
    + exact Hl.
    + eapply Forall_impl; [| exact Hf]. intros tx ->. exact Hfees.
Qed.

Lemma ff_cooldown_main_sends_witness :
  Forall (cooldown_script_tx sample_library)
    (broadcasts (hd [] (fst (ff_cooldown_main sample_library sample_process))))
  /\
  (List.length
     (estimates (hd [] (fst (ff_cooldown_main sample_library sample_process))))
   <= 1)%nat /\
  Forall (fun tx =>
            suggest_fees (to_wei_gwei sample_library) (fee_node sample_process)
                         PRIORITY_GWEI = Some (fees_of tx))
    (estimates (hd [] (fst (ff_cooldown_main sample_library sample_process)))).
Proof.
  apply (ff_cooldown_main_sends sample_library sample_process).
  vm_compute. left. reflexivity.
Defined.

(** In both scripts a wallet signs with the account derived from its own
    key, and the first nonce it takes is the pending transaction count the
    node reported for it when its turn began. *)
Theorem wallet_turn_own_account_and_nonce lib fees w3 pk events acct pending :
  wallet_turn lib (deposit_body lib fees) w3 pk = Some events \/
  wallet_turn lib (cooldown_body lib fees) w3 pk = Some events ->
  from_key lib pk = Some acct ->
  pending_count w3 = Some pending ->
  Forall (fun tx => from tx = address acct) (broadcasts events) /\
  starts_at pending events.
Proof.
  intros [Hturn | Hturn] Hkey Hpending;
    apply wallet_turn_some in Hturn
      as [-> | (acct' & pending' & Hk & Hp & ->)];
    try (split; [constructor | exact I]);
    rewrite Hkey in Hk; rewrite Hpending in Hp;
    inversion Hk; inversion Hp; subst acct' pending'.
  - destruct (deposit_body_frame lib fees w3 acct
                (NonceManager_init (address acct) pending))
      as (Hb & _ & _ & Hs).
    split; [| exact Hs].
    eapply Forall_impl; [| exact Hb]. now intros tx [_ H].
  - destruct (cooldown_body_frame lib fees w3 acct
                (NonceManager_init (address acct) pending))
      as (Hb & _ & _ & Hs).
    split; [| exact Hs].
    eapply Forall_impl; [| exact Hb]. now intros tx [_ H].
Qed.

Lemma wallet_turn_own_account_and_nonce_witness :
  Forall (fun tx => from tx = address sample_account)
    (broadcasts
       (trace_of (deposit_body sample_library (mkFees 100 200)
                    (sample_wallet (Some 7)) sample_account
                    (NonceManager_init (address sample_account) 5)))) /\
  starts_at 5
    (trace_of (deposit_body sample_library (mkFees 100 200)
                 (sample_wallet (Some 7)) sample_account
                 (NonceManager_init (address sample_account) 5))).
Proof.
  apply (wallet_turn_own_account_and_nonce sample_library (mkFees 100 200)
           (sample_wallet (Some 7)) sample_key _ sample_account 5).
  - left. reflexivity.
  - reflexivity.
  - reflexivity.
Defined.

(** A wallet whose turn starts but that is short of ETH, or whose token
    balance is zero, or whose [balanceOf] query raises, is passed over in
    both scripts: it takes no nonce and sends nothing, and the run goes
    on. *)
Theorem wallet_turn_skips lib fees w3 pk :
  turn_starts lib w3 pk = true ->
  (exists wei, eth_balance w3 = Some wei /\
               Decimal_lt (from_wei_ether lib wei) MIN_ETH_FOR_TX) \/
  token_balance w3 = None \/ token_balance w3 = Some 0 ->
  wallet_turn lib (deposit_body lib fees) w3 pk = Some [] /\
  wallet_turn lib (cooldown_body lib fees) w3 pk = Some [].
Proof.
  unfold turn_starts, wallet_turn. intros Hstart Hskip.
  destruct (from_key lib pk) as [acct |]; [| discriminate].
  destruct (pending_count w3) as [pending |]; [| discriminate].
  destruct (eth_balance w3) as [wei |]; [| discriminate].
  destruct (Decimal_ltb (from_wei_ether lib wei) MIN_ETH_FOR_TX) eqn:Hlt';
    [split; reflexivity |].
  rewrite deposit_body_trace, cooldown_body_trace.
  destruct Hskip as [(wei' & Hw & Hlt) | [-> | ->]];
    try (split; reflexivity).
  inversion Hw; subst wei'. unfold Decimal_ltb in Hlt'.
  apply Z.ltb_ge in Hlt'. unfold Decimal_lt in Hlt. cbv zeta in *. lia.
Qed.

Lemma wallet_turn_skips_witness :
  wallet_turn sample_library (deposit_body sample_library (mkFees 100 200))
    (mkWalletNode (Some 5) (Some (2 * 10 ^ 13)) (Some 1000) (Some 0)
       (quiet_node (fun _ => [])) (quiet_node (fun _ => []))
       (quiet_node (fun _ => []))) sample_key = Some [] /\
  wallet_turn sample_library (cooldown_body sample_library (mkFees 100 200))
    (mkWalletNode (Some 5) (Some (2 * 10 ^ 13)) (Some 1000) (Some 0)
       (quiet_node (fun _ => [])) (quiet_node (fun _ => []))
       (quiet_node (fun _ => []))) sample_key = Some [].
Proof.
  apply (wallet_turn_skips sample_library (mkFees 100 200)
           (mkWalletNode (Some 5) (Some (2 * 10 ^ 13)) (Some 1000) (Some 0)
              (quiet_node (fun _ => [])) (quiet_node (fun _ => []))
              (quiet_node (fun _ => []))) sample_key).
  - reflexivity.
  - left. exists (2 * 10 ^ 13). split; [reflexivity |].
    vm_compute. reflexivity.
Defined.

(* ------------------------------------------------------------------ *)
(** ** Instances *)

Lemma poll_receipt_first_receipt_witness :
  poll_receipt [PollRaised; PollNone; PollNoStatus; PollReceipt 0;
                PollReceipt 1] = Some 0.
Proof.
  apply (poll_receipt_first_receipt
           [PollRaised; PollNone; PollNoStatus; PollReceipt 0; PollReceipt 1]).
  exists [PollRaised; PollNone; PollNoStatus], [PollReceipt 1].
  split; reflexivity.
Defined.

Lemma suggest_fees_raises_witness :
  suggest_fees gwei_to_wei (sample_node (Some []) None None (fun _ => []))
               PRIORITY_GWEI = None.
Proof.
  apply (suggest_fees_raises gwei_to_wei
           (sample_node (Some []) None None (fun _ => [])) PRIORITY_GWEI).
  right. split; [reflexivity | right; reflexivity].
Defined.

Lemma signed_raw_tx_bytes_raises_witness :
  signed_raw_tx_bytes
    (mkSigned None None
       (Some (fun k => if String.eqb k "rawTransaction" then Some None
                       else Some (Some "0xf86b"%string)))) = None.
Proof.
  apply (signed_raw_tx_bytes_raises
           (mkSigned None None
              (Some (fun k => if String.eqb k "rawTransaction" then Some None
                              else Some (Some "0xf86b"%string))))).
  split; [reflexivity |]. split; [reflexivity |].
  right. eexists. split; [reflexivity |]. left. reflexivity.
Defined.

Lemma load_keys_success_witness :
  load_keys sample_key_file = Keys [sample_key; sample_key].
Proof.
  apply (load_keys_success sample_key_file [sample_key; sample_key]).
  split; [vm_compute; reflexivity |]. split; [discriminate |].
  vm_compute. reflexivity.
Defined.

Lemma load_keys_errors_witness :
  load_keys (sample_key_file ++ [[48%N; 120%N; 49%N; 10%N]]) =
  ValueError [48%N; 120%N; 49%N].
Proof.
  apply (load_keys_errors (sample_key_file ++ [[48%N; 120%N; 49%N; 10%N]])).
  exists sample_key_file, [48%N; 120%N; 49%N; 10%N], [].
  split; [reflexivity |]. split; [vm_compute; reflexivity |].
  split; [reflexivity |]. split; reflexivity.
Defined.

Lemma ensure_infinite_approve_broadcasts_witness :
  exists resets approvals,
    broadcasts (trace_of (ensure_infinite_approve sample_library
                            (sample_wallet (Some 7)) sample_account
                            "0xTOKEN" "0xVAULT" 1000 (mkFees 100 200)
                            sample_manager)) = resets ++ approvals /\
    Forall (calls sample_account "0xTOKEN"
                  (encode_approve sample_library "0xVAULT" 0)) resets /\
    Forall (calls sample_account "0xTOKEN"
                  (encode_approve sample_library "0xVAULT" UINT256_MAX))
           approvals /\
    (resets ++ approvals <> [] ->
     exists current,
       allowance_call (sample_wallet (Some 7)) = Some current /\
       current < 1000) /\
    (resets <> [] ->
     exists current,
       allowance_call (sample_wallet (Some 7)) = Some current /\ 0 < current).
Proof.
  exact (ensure_infinite_approve_broadcasts sample_library
           (sample_wallet (Some 7)) sample_account "0xTOKEN" "0xVAULT" 1000
           (mkFees 100 200) sample_manager).
Defined.
